(** * dosa entity finder (finder.go): a shallow embedding and its properties

    The development follows finder.go function by function:
    [stringToDosaType], [isDosaEntity], [tableFromStructType], the
    [EntityRecordingVisitor] with its [Visit] method, and [FindEntities].

    finder.go calls into the Go standard library (reflect, strings, unicode,
    path/filepath, go/parser) and into other files of the dosa package
    (NormalizeName, parseEntityTag, parseField, translateKeyName,
    EnsureValid and the constants entityName and dosaTagKey).  None of
    these is defined in finder.go, so they are taken as operations of two
    interfaces, [GoLib] and [Collaborators]; every theorem holds for all
    their implementations, and the assumptions a property needs about them
    are written out as hypotheses.  A small implementation of both
    interfaces ([Reference]) is used where a statement is evaluated on a
    concrete declaration. *)

From Stdlib Require Import Ascii String.
From stdpp Require Import base option list strings gmap fin_maps.

Local Open Scope string_scope.
#[local] Set Warnings "-register-all".

(** ** Errors

    A Go [error] is kept as the call that built it: the format string and
    the arguments, not the formatted text. *)
Inductive error : Type :=
| errorString (msg : string)                                  (* errors.New *)
| Errorf (format : string) (args : list string)               (* fmt.Errorf *)
| Wrapf (cause : error) (format : string) (args : list string). (* errors.Wrap, errors.Wrapf *)

(** [result A] is a Go pair (value, error) of which exactly one is set. *)
Definition result (A : Type) : Type := (error + A)%type.
Definition Ok {A} (a : A) : result A := inr a.
Definition Err {A} (e : error) : result A := inl e.

Definition bind {A B} (r : result A) (k : A -> result B) : result B :=
  match r with
  | inl e => inl e
  | inr a => k a
  end.

Notation "'try' x <- r 'in' k" := (bind r (fun x => k))
  (at level 10, x name, r at level 100, k at level 200).

(** ** The schema data model *)

(** Modelled from the spec: the Type enumeration is declared outside
    finder.go; the spec lists it as the closed enumeration {String, Blob,
    Bool, Int32, Int64, Double, Timestamp, UUID, Invalid}.  finder.go names
    the UUID member [TUUID]. *)
Module DosaType.
Inductive t : Set :=
| Invalid | TUUID | String | Blob | Bool | Double | Int32 | Int64 | Timestamp.

#[global] Instance eq_dec : EqDecision t.
Proof. solve_decision. Defined.
End DosaType.

(** Modelled from the spec: the key structure is declared outside finder.go
    ("external key-definition shape, parsed from tag"); finder.go only
    stores it.  It is kept as the names the key refers to. *)
Record PrimaryKey : Type := {
  PartitionKeys : list string;
  ClusteringKeys : list (string * bool)
}.

(** Modelled from the spec: ColumnDefinition is declared outside finder.go;
    finder.go reads its [Name], and the spec gives it a schema type. *)
Module ColumnDefinition.
Record t : Type := mk { Name : string; Type_ : DosaType.t }.
End ColumnDefinition.

(** Modelled from the spec: EntityDefinition is declared outside finder.go;
    finder.go sets [Name] and [Columns] and assigns [Key] (a pointer, nil
    until a marker field has been parsed). *)
Module EntityDefinition.
Record t : Type := mk {
  Name : string;
  Key : option PrimaryKey;
  Columns : list ColumnDefinition.t
}.
End EntityDefinition.

(** Modelled from the spec: Table is declared outside finder.go; the
    composite literal in tableFromStructType gives its four fields. *)
Module Table.
Record t : Type := mk {
  StructName : string;
  EntityDefinition : EntityDefinition.t;
  ColToField : gmap string string;
  FieldToCol : gmap string string
}.

Definition Name (t : t) : string := EntityDefinition.Name (EntityDefinition t).
Definition Key (t : t) : option PrimaryKey := EntityDefinition.Key (EntityDefinition t).
Definition Columns (t : t) : list ColumnDefinition.t :=
  EntityDefinition.Columns (EntityDefinition t).
End Table.

(** ** The part of go/ast that finder.go inspects *)

Inductive Token : Set := INT | FLOAT | IMAG | CHAR | STRING.

#[global] Instance Token_eq_dec : EqDecision Token.
Proof. solve_decision. Defined.

(** [Value] is the literal as written, with its quotes. *)
Record BasicLit : Type := { Kind : Token; Value : string }.

(** Field types.  finder.go tells identifiers, array types and selector
    expressions apart; every other expression ([*T], [map[K]V], an
    anonymous struct, ...) takes the same path and is [OtherExpr]. *)
Inductive Expr : Type :=
| Ident (Name : string)
| ArrayType (Len : option Expr) (Elt : Expr)
| SelectorExpr (X : Expr) (Sel : string)
| OtherExpr.

Record Field : Type := {
  Names : list string;
  Typ : Expr;
  Tag : option BasicLit
}.

(** [Fields] is [structType.Fields.List]. *)
Record StructType : Type := { Fields : list Field }.

(** The type of a type declaration: a struct type or anything else. *)
Inductive TypeExpr : Type :=
| IsStruct (structType : StructType)
| NotStruct (e : Expr).

(** Syntax-tree nodes, with the children through which a TypeSpec can be
    reached.  [OtherNode] stands for every node kind that [Visit] does not
    list: the walk stops there. *)
Inductive Node : Type :=
| File (Decls : list Node)
| Package (Files : list Node)
| BlockStmt (List : list Node)
| DeclStmt (Decl : Node)
| FuncDecl (Body : option Node)
| GenDecl (Specs : list Node)
| TypeSpec (Name : string) (Type_ : TypeExpr)
| OtherNode.

(** What parser.ParseDir hands to FindEntities.  Both are Go maps there;
    the lists give the order in which the range loops visit them. *)
Record ParsedFile : Type := { FileDecls : list Node }.
Record ParsedPackage : Type := { PackageFiles : list ParsedFile }.

Definition rune : Type := Z.

(** ** The interfaces finder.go depends on *)

(** The Go standard library functions called by finder.go. *)
Class GoLib : Type := {
  (** [reflect.StructTag(tag).Get(key)] *)
  StructTag_Get : string -> string -> string;
  (** [strings.Trim(s, cutset)] *)
  strings_Trim : string -> string -> string;
  (** [strings.TrimSpace(s)] *)
  strings_TrimSpace : string -> string;
  (** [utf8.DecodeRuneInString(s)]: the first rune and its width *)
  utf8_DecodeRuneInString : string -> rune * Z;
  (** [unicode.IsLower(r)] *)
  unicode_IsLower : rune -> bool;
  (** [filepath.Match(pattern, name)] *)
  filepath_Match : string -> string -> bool * option error;
  (** [parser.ParseDir(fset, path, filter, 0)], the filter seeing file names *)
  parser_ParseDir : string -> (string -> bool) -> list ParsedPackage * option error
}.

(** The rest of the dosa package, as far as finder.go uses it.  The
    functions that return a value and an error are results; finder.go
    reads the value only when the error is nil. *)
Class Collaborators : Type := {
  (** the constants [entityName] and [dosaTagKey] *)
  entityName : string;
  dosaTagKey : string;
  (** [NormalizeName(name)] *)
  NormalizeName : string -> result string;
  (** [parseEntityTag(structName, dosaTag)]: the entity name and the key *)
  parseEntityTag : string -> string -> result (string * option PrimaryKey);
  (** [parseField(typ, name, tag)] *)
  parseField : DosaType.t -> string -> string -> result ColumnDefinition.t;
  (** [translateKeyName(t)] works on the table in place: the table after
      the call *)
  translateKeyName : Table.t -> Table.t;
  (** [t.EnsureValid()]: the error, or nil; a check that leaves the table
      as it is *)
  EnsureValid : Table.t -> option error
}.

(** ** finder.go *)

Definition stringToDosaType (inType : string) : DosaType.t :=
  if String.eqb inType "string" then DosaType.String
  else if String.eqb inType "[]byte" then DosaType.Blob
  else if String.eqb inType "bool" then DosaType.Bool
  else if String.eqb inType "int32" then DosaType.Int32
  else if String.eqb inType "int64" then DosaType.Int64
  else if String.eqb inType "float64" then DosaType.Double
  else if String.eqb inType "time.Time" then DosaType.Timestamp
  else if String.eqb inType "UUID" then DosaType.TUUID
  else DosaType.Invalid.

Section Finder.
Context {G : GoLib} {C : Collaborators}.

(** [reflect.StructTag(strings.Trim(lit.Value, "`")).Get(dosaTagKey)] *)
Definition entityTagGet (lit : BasicLit) : string :=
  StructTag_Get (strings_Trim (Value lit) "`") dosaTagKey.

Definition isDosaEntity (structType : StructType) : bool :=
  match Fields structType with
  | [] => false
  | candidateEntityField :: _ =>
    if match Typ candidateEntityField with
       | Ident name => negb (String.eqb name entityName)
       | _ => false
       end
    then false
    else
      match Tag candidateEntityField with
      | None => false
      | Some lit =>
        if negb (bool_decide (Kind lit = STRING)) then false
        else if String.eqb (entityTagGet lit) "" then false
        else true
      end
  end.

(** The [dosaTag] variable of the field loop. *)
Definition fieldDosaTag (field : Field) : string :=
  match Tag field with
  | Some lit => strings_TrimSpace (entityTagGet lit)
  | None => ""
  end.

(** The [kind] variable of the field loop. *)
Definition fieldKind (field : Field) : string :=
  match Typ field with
  | Ident name => name
  | ArrayType _ (Ident name) => if String.eqb name "byte" then "[]byte" else ""
  | SelectorExpr (Ident name) _ => if String.eqb name "time" then "time.Time" else ""
  | _ => ""
  end.

(** [t.EntityDefinition.Name, t.Key = name, key] *)
Definition setNameKey (t : Table.t) (name : string) (key : option PrimaryKey) : Table.t :=
  Table.mk (Table.StructName t)
           (EntityDefinition.mk name key (Table.Columns t))
           (Table.ColToField t) (Table.FieldToCol t).

(** The three statements that attach a column:
    [t.Columns = append(t.Columns, cd)], [t.ColToField[cd.Name] = name],
    [t.FieldToCol[name] = cd.Name]. *)
Definition addColumn (t : Table.t) (name : string) (cd : ColumnDefinition.t) : Table.t :=
  Table.mk (Table.StructName t)
           (EntityDefinition.mk (Table.Name t) (Table.Key t) (Table.Columns t ++ [cd]))
           (<[ColumnDefinition.Name cd := name]> (Table.ColToField t))
           (<[name := ColumnDefinition.Name cd]> (Table.FieldToCol t)).

Definition isUnexported (name : string) : bool :=
  let '(firstRune, _) := utf8_DecodeRuneInString name in
  unicode_IsLower firstRune.

(** The inner loop, [for _, fieldName := range field.Names]. *)
Fixpoint namesLoop (kind dosaTag : string) (names : list string) (t : Table.t)
  : result Table.t :=
  match names with
  | [] => Ok t
  | name :: names' =>
    if isUnexported name then namesLoop kind dosaTag names' t
    else
      let typ := stringToDosaType kind in
      if bool_decide (typ = DosaType.Invalid) then
        Err (Errorf "Column %q has invalid type %q" [name; kind])
      else
        match parseField typ name dosaTag with
        | inl err => Err (Wrapf err "column %q" [name])
        | inr cd => namesLoop kind dosaTag names' (addColumn t name cd)
        end
  end.

(** One iteration of [for _, field := range structType.Fields.List]. *)
Definition fieldStep (structName : string) (field : Field) (t : Table.t)
  : result Table.t :=
  let dosaTag := fieldDosaTag field in
  if String.eqb dosaTag "-" then Ok t
  else
    let kind := fieldKind field in
    if String.eqb kind entityName then
      match parseEntityTag structName dosaTag with
      | inl err => Err err
      | inr (name, key) => Ok (setNameKey t name key)
      end
    else namesLoop kind dosaTag (Names field) t.

Fixpoint fieldsLoop (structName : string) (fields : list Field) (t : Table.t)
  : result Table.t :=
  match fields with
  | [] => Ok t
  | field :: fields' =>
    try t' <- fieldStep structName field t in
    fieldsLoop structName fields' t'
  end.

(** The table before the field loop. *)
Definition newTable (structName normalizedName : string) : Table.t :=
  Table.mk structName (EntityDefinition.mk normalizedName None []) ∅ ∅.

Definition tableFromStructType (structName : string) (structType : StructType)
  : result Table.t :=
  match NormalizeName structName with
  | inl err => Err (Wrapf err "struct name is invalid" [])
  | inr normalizedName =>
    try t <- fieldsLoop structName (Fields structType) (newTable structName normalizedName) in
    let t := translateKeyName t in
    match EnsureValid t with
    | Some err => Err (Wrapf err "failed to parse dosa object" [])
    | None => Ok t
    end
  end.

Record EntityRecordingVisitor : Type := {
  Entities : list Table.t;
  Warnings : list error
}.

(** [Visit] returns the visitor itself ([true]: walk the children) or
    nil ([false]); the visitor's two lists are the state. *)
Definition Visit (f : EntityRecordingVisitor) (n : Node) : EntityRecordingVisitor * bool :=
  match n with
  | File _ | Package _ | BlockStmt _ | DeclStmt _ | FuncDecl _ | GenDecl _ => (f, true)
  | TypeSpec name (IsStruct structType) =>
    if isDosaEntity structType then
      match tableFromStructType name structType with
      | inr table => ({| Entities := Entities f ++ [table]; Warnings := Warnings f |}, false)
      | inl err => ({| Entities := Entities f; Warnings := Warnings f ++ [err] |}, false)
      end
    else (f, false)
  | _ => (f, false)
  end.

(** [ast.Walk(f, n)]: visit [n] and, unless [Visit] returned nil, walk
    its children in order.  The closing [Visit(nil)] changes nothing. *)
Fixpoint Walk (n : Node) (f : EntityRecordingVisitor) {struct n} : EntityRecordingVisitor :=
  let '(f', continue) := Visit f n in
  if continue then
    match n with
    | File nodes | Package nodes | BlockStmt nodes | GenDecl nodes =>
      fold_left (fun acc child => Walk child acc) nodes f'
    | DeclStmt decl => Walk decl f'
    | FuncDecl (Some body) => Walk body f'
    | _ => f'
    end
  else f'.

(** The file filter handed to parser.ParseDir. *)
Definition fileFilter (excludes : string) (fileName : string) : bool :=
  if String.eqb excludes "" then true
  else
    let '(matched, _) := filepath_Match excludes fileName in
    negb matched.

Definition walkDecls (decls : list Node) (erv : EntityRecordingVisitor)
  : EntityRecordingVisitor :=
  fold_left (fun acc decl => Walk decl acc) decls erv.

Definition walkFiles (files : list ParsedFile) (erv : EntityRecordingVisitor)
  : EntityRecordingVisitor :=
  fold_left (fun acc file => walkDecls (FileDecls file) acc) files erv.

Definition walkPackages (packages : list ParsedPackage) (erv : EntityRecordingVisitor)
  : EntityRecordingVisitor :=
  fold_left (fun acc pkg => walkFiles (PackageFiles pkg) acc) packages erv.

(** A nil slice is the empty list. *)
Definition FindEntities (path excludes : string)
  : list Table.t * list error * option error :=
  match parser_ParseDir path (fileFilter excludes) with
  | (_, Some err) => ([], [], Some err)
  | (packages, None) =>
    let erv := walkPackages packages {| Entities := []; Warnings := [] |} in
    (Entities erv, Warnings erv, None)
  end.

End Finder.

(** ** A reference implementation of the two interfaces

    Used to run the embedding on concrete declarations.  The Go library
    functions are the ASCII fragment of the real ones; the dosa functions
    follow what the spec says about the collaborators. *)
Module Reference.

Definition inCutset (cutset : string) (c : ascii) : bool :=
  existsb (Ascii.eqb c) (list_ascii_of_string cutset).

Fixpoint trimLeft (cutset : string) (s : string) : string :=
  match s with
  | String.String c s' => if inCutset cutset c then trimLeft cutset s' else s
  | EmptyString => EmptyString
  end.

Definition reverse (s : string) : string :=
  string_of_list_ascii (rev (list_ascii_of_string s)).

(** strings.Trim for a cutset of ASCII characters. *)
Definition Trim (s cutset : string) : string :=
  reverse (trimLeft cutset (reverse (trimLeft cutset s))).

Definition tab : ascii := ascii_of_nat 9.
Definition newline : ascii := ascii_of_nat 10.
Definition vtab : ascii := ascii_of_nat 11.
Definition formfeed : ascii := ascii_of_nat 12.
Definition creturn : ascii := ascii_of_nat 13.

Definition asciiSpace : string :=
  string_of_list_ascii [tab; newline; vtab; formfeed; creturn; " "%char].

(** strings.TrimSpace on ASCII text. *)
Definition TrimSpace (s : string) : string := Trim s asciiSpace.

Fixpoint skipSpaces (s : string) : string :=
  match s with
  | String.String " " s' => skipSpaces s'
  | _ => s
  end.

(** A character that may stand in a tag key: above the space, and none
    of colon, double quote and DEL. *)
Definition isKeyChar (c : ascii) : bool :=
  Nat.ltb 32 (nat_of_ascii c) && negb (Ascii.eqb c ":") && negb (Ascii.eqb c "034")
  && negb (Nat.eqb (nat_of_ascii c) 127).

Fixpoint scanKey (s : string) : string * string :=
  match s with
  | String.String c s' =>
    if isKeyChar c then let '(k, rest) := scanKey s' in (String.String c k, rest)
    else (EmptyString, s)
  | EmptyString => (EmptyString, EmptyString)
  end.

(** The text up to the closing double quote, and what follows it; a
    backslash takes the next character with it.  [None]: no closing
    quote. *)
Fixpoint scanQuoted (s : string) : option (string * string) :=
  match s with
  | EmptyString => None
  | String.String "034" rest => Some (EmptyString, rest)
  | String.String "\" (String.String c s') =>
    match scanQuoted s' with
    | Some (v, rest) => Some (String.String "\" (String.String c v), rest)
    | None => None
    end
  | String.String c s' =>
    match scanQuoted s' with
    | Some (v, rest) => Some (String.String c v, rest)
    | None => None
    end
  end.

(** strconv.Unquote of a double-quoted text without escape sequences and
    line breaks; a text with one of them is refused here. *)
Definition unquotePlain (v : string) : option string :=
  if existsb (fun c => Ascii.eqb c "\" || Ascii.eqb c newline) (list_ascii_of_string v)
  then None else Some v.

(** reflect.StructTag.Lookup: the conventional [key:"value"] pairs,
    scanned from the left. *)
Fixpoint tagLookup (fuel : nat) (tag key : string) : string :=
  match fuel with
  | O => ""
  | S fuel' =>
    let tag := skipSpaces tag in
    let '(name, rest) := scanKey tag in
    match name, rest with
    | String.String _ _, String.String ":" (String.String "034" body) =>
      match scanQuoted body with
      | Some (value, rest') =>
        if String.eqb key name then default "" (unquotePlain value)
        else tagLookup fuel' rest' key
      | None => ""
      end
    | _, _ => ""
    end
  end.

Definition Get (tag key : string) : string := tagLookup (String.length tag) tag key.

Definition RuneError : rune := 65533%Z.

(** utf8.DecodeRuneInString on text that starts with an ASCII character. *)
Definition DecodeRuneInString (s : string) : rune * Z :=
  match s with
  | EmptyString => (RuneError, 0%Z)
  | String.String c _ =>
    if Nat.ltb (nat_of_ascii c) 128 then (Z.of_nat (nat_of_ascii c), 1%Z) else (RuneError, 1%Z)
  end.

(** unicode.IsLower on the ASCII range. *)
Definition IsLower (r : rune) : bool := ((97 <=? r) && (r <=? 122))%Z.

Definition ErrBadPattern : error := errorString "syntax error in pattern".

Fixpoint globMatch (pattern name : list ascii) : bool :=
  match pattern with
  | [] => match name with [] => true | _ => false end
  | "*"%char :: pattern' =>
    (fix star (name : list ascii) : bool :=
       globMatch pattern' name ||
       match name with [] => false | _ :: name' => star name' end) name
  | "?"%char :: pattern' =>
    match name with _ :: name' => globMatch pattern' name' | [] => false end
  | c :: pattern' =>
    match name with
    | d :: name' => Ascii.eqb c d && globMatch pattern' name'
    | [] => false
    end
  end.

(** filepath.Match for patterns made of literals, [*] and [?]; a pattern
    with a [[] is reported as malformed (character classes are left
    out). *)
Definition Match (pattern name : string) : bool * option error :=
  if inCutset pattern "[" then (false, Some ErrBadPattern)
  else (globMatch (list_ascii_of_string pattern) (list_ascii_of_string name), None).

(** A directory: its files by name, each one parsed or with its syntax
    error. *)
Definition Directory : Type := list (string * result ParsedFile).

(** parser.ParseDir over a fixed tree [tree]: the files the filter lets
    through are parsed into one package; the first error is returned. *)
Definition ParseDir (tree : string -> option Directory) (path : string)
    (filter : string -> bool) : list ParsedPackage * option error :=
  match tree path with
  | None => ([], Some (errorString "no such file or directory"))
  | Some dir =>
    let kept := List.filter (fun entry => filter (fst entry)) dir in
    let files := omap (fun entry => match snd entry with inr f => Some f | inl _ => None end) kept in
    let errs := omap (fun entry => match snd entry with inl e => Some e | inr _ => None end) kept in
    ([{| PackageFiles := files |}], head errs)
  end.

Definition golib (tree : string -> option Directory) : GoLib := {|
  StructTag_Get := Get;
  strings_Trim := Trim;
  strings_TrimSpace := TrimSpace;
  utf8_DecodeRuneInString := DecodeRuneInString;
  unicode_IsLower := IsLower;
  filepath_Match := Match;
  parser_ParseDir := ParseDir tree
|}.

Definition lowerChar (c : ascii) : ascii :=
  let n := nat_of_ascii c in
  if Nat.leb 65 n && Nat.leb n 90 then ascii_of_nat (n + 32) else c.

Definition toLower (s : string) : string :=
  string_of_list_ascii (map lowerChar (list_ascii_of_string s)).

(** Modelled from the spec: NormalizeName is "declared name → normalized
    schema name, or an error for invalid names"; here the lower-cased
    name, the empty name being invalid. *)
Definition normalizeName (name : string) : result string :=
  if String.eqb name "" then Err (errorString "cannot be empty") else Ok (toLower name).

(** [s] without the prefix [p], when it starts with it. *)
Definition stripPrefix (p s : string) : option string :=
  if String.prefix p s
  then Some (String.substring (String.length p) (String.length s - String.length p) s)
  else None.

(** Modelled from the spec: parseEntityTag parses the marker field's tag
    "into (entity-name, key-structure)"; here a tag [primaryKey=F] gives
    the normalized declared name and the key on field [F]. *)
Definition entityTagParser (structName dosaTag : string)
  : result (string * option PrimaryKey) :=
  match stripPrefix "primaryKey=" dosaTag with
  | Some fieldName =>
    Ok (toLower structName,
        Some {| PartitionKeys := [fieldName]; ClusteringKeys := [] |})
  | None => Err (Errorf "dosa.Entity on object %s has an invalid dosa struct tag %q" [structName; dosaTag])
  end.

(** Modelled from the spec: parseField parses an ordinary field's tag
    "into column overrides" and builds the ColumnDefinition of the given
    type; here a tag [name=c] names the column [c], an empty tag leaves
    the normalized field name, any other tag is malformed. *)
Definition fieldParser (typ : DosaType.t) (name dosaTag : string)
  : result ColumnDefinition.t :=
  match stripPrefix "name=" dosaTag with
  | Some col => Ok (ColumnDefinition.mk col typ)
  | None =>
    if String.eqb dosaTag "" then
      match normalizeName name with
      | inr col => Ok (ColumnDefinition.mk col typ)
      | inl err => Err err
      end
    else Err (Errorf "invalid dosa field tag %q" [dosaTag])
  end.

(** Modelled from the spec: translateKeyName "resolves key field
    references against the now-complete column list"; the tables and
    the columns stay as they are. *)
Definition keyNameTranslator (t : Table.t) : Table.t :=
  let col := fun fieldName => default "" (Table.FieldToCol t !! fieldName) in
  let key :=
    match Table.Key t with
    | Some k => Some {| PartitionKeys := map col (PartitionKeys k);
                        ClusteringKeys := map (fun ck => (col (fst ck), snd ck)) (ClusteringKeys k) |}
    | None => None
    end in
  Table.mk (Table.StructName t)
           (EntityDefinition.mk (Table.Name t) key (Table.Columns t))
           (Table.ColToField t) (Table.FieldToCol t).

Fixpoint hasDuplicate (names : list string) : bool :=
  match names with
  | [] => false
  | n :: names' => existsb (String.eqb n) names' || hasDuplicate names'
  end.

(** Modelled from the spec: EnsureValid is the "final schema-validity
    checker"; here it wants a key, distinct column names, and every key
    name among the columns. *)
Definition validityChecker (t : Table.t) : option error :=
  let cols := map ColumnDefinition.Name (Table.Columns t) in
  match Table.Key t with
  | None => Some (errorString "EntityDefinition has nil PrimaryKey")
  | Some k =>
    if hasDuplicate cols then Some (errorString "duplicated column found")
    else if forallb (fun p => existsb (String.eqb p) cols)
                    (PartitionKeys k ++ map fst (ClusteringKeys k))
    then None
    else Some (errorString "primary key does not refer to a column")
  end.

Definition collaborators : Collaborators := {|
  entityName := "Entity";
  dosaTagKey := "dosa";
  NormalizeName := normalizeName;
  parseEntityTag := entityTagParser;
  parseField := fieldParser;
  translateKeyName := keyNameTranslator;
  EnsureValid := validityChecker
|}.

End Reference.

(** ** Definitions that follow the spec's words *)

(** The labels the spec's Type Mapper knows, with their schema types. *)
Definition knownLabels : list (string * DosaType.t) :=
  [ ("string", DosaType.String); ("[]byte", DosaType.Blob); ("bool", DosaType.Bool);
    ("int32", DosaType.Int32); ("int64", DosaType.Int64); ("float64", DosaType.Double);
    ("time.Time", DosaType.Timestamp); ("UUID", DosaType.TUUID) ].

Section Readings.
Context {G : GoLib} {C : Collaborators}.

(** "The first field is of the designated marker type and carries a
    non-empty marker-key tag value." *)
Definition firstFieldIsTaggedMarker (structType : StructType) : bool :=
  match Fields structType with
  | [] => false
  | first :: _ =>
    match Typ first, Tag first with
    | Ident name, Some lit =>
      String.eqb name entityName && negb (String.eqb (entityTagGet lit) "")
    | _, _ => false
    end
  end.

(** The (field name, column name) pairs of the exported names of one
    field declaration of the given type label and tag. *)
Definition nameBindings (kind dosaTag : string) (names : list string)
  : list (string * string) :=
  flat_map (fun name =>
              if isUnexported name then []
              else match parseField (stringToDosaType kind) name dosaTag with
                   | inr cd => [(name, ColumnDefinition.Name cd)]
                   | inl _ => []
                   end) names.

(** The pairs bound by a field: none for an ignored field and for a
    marker field. *)
Definition fieldBindings (field : Field) : list (string * string) :=
  if String.eqb (fieldDosaTag field) "-" then []
  else if String.eqb (fieldKind field) entityName then []
  else nameBindings (fieldKind field) (fieldDosaTag field) (Names field).

(** The pairs bound by the non-ignored, exported fields of a record, in
    declaration order. *)
Definition exportedBindings (fields : list Field) : list (string * string) :=
  flat_map fieldBindings fields.

(** A marker field that the field loop acts on. *)
Definition isMarkerField (field : Field) : bool :=
  negb (String.eqb (fieldDosaTag field) "-") && String.eqb (fieldKind field) entityName.

End Readings.

(** The field-to-column table after registering [pairs] in order on top
    of [m], a later pair replacing an earlier one with the same field. *)
Definition fieldToColOf (pairs : list (string * string)) (m : gmap string string)
  : gmap string string :=
  fold_left (fun acc p => <[fst p := snd p]> acc) pairs m.

(** The column-to-field table after registering [pairs] in order. *)
Definition colToFieldOf (pairs : list (string * string)) (m : gmap string string)
  : gmap string string :=
  fold_left (fun acc p => <[snd p := fst p]> acc) pairs m.

(** No field name is bound to two column names, and no column name to two
    field names. *)
Definition oneToOne (pairs : list (string * string)) : Prop :=
  forall n c n' c', (n, c) ∈ pairs -> (n', c') ∈ pairs -> (n = n' <-> c = c').

(** [oneToOne] as a test: any two pairs agree on the field name exactly
    when they agree on the column name. *)
Definition oneToOneb (pairs : list (string * string)) : bool :=
  forallb (fun p =>
             forallb (fun q => Bool.eqb (String.eqb (fst p) (fst q))
                                        (String.eqb (snd p) (snd q))) pairs) pairs.

(** The two mapping tables are exact inverses of each other. *)
Definition exactInverses (t : Table.t) : Prop :=
  forall n c, Table.FieldToCol t !! n = Some c <-> Table.ColToField t !! c = Some n.

(** [field] with the names [names] instead of its own. *)
Definition withNames (field : Field) (names : list string) : Field :=
  {| Names := names; Typ := Typ field; Tag := Tag field |}.

(** ** Declarations used as examples *)

(** [text] between double quotes. *)
Definition quoted (text : string) : string :=
  String.String "034" (text +:+ String.String "034" EmptyString).

(** The raw string literal [`dosa:"<value>"`]. *)
Definition dosaLit (value : string) : BasicLit :=
  {| Kind := STRING; Value := "`dosa:" +:+ quoted value +:+ "`" |}.

(** [Entity `dosa:"primaryKey=<key>"`] *)
Definition markerField (key : string) : Field :=
  {| Names := []; Typ := Ident "Entity";
     Tag := Some (dosaLit ("primaryKey=" +:+ key)) |}.

(** [<name> <type>] *)
Definition plainField (name type : string) : Field :=
  {| Names := [name]; Typ := Ident type; Tag := None |}.

(** [<name> <type> `dosa:"<tag>"`] *)
Definition taggedField (name type tag : string) : Field :=
  {| Names := [name]; Typ := Ident type; Tag := Some (dosaLit tag) |}.

(** [type User struct { Entity `dosa:"primaryKey=Name"`; Name string }] *)
Definition userStruct : StructType :=
  {| Fields := [markerField "Name"; plainField "Name" "string"] |}.

(** As [userStruct], with a field of a nested struct type. *)
Definition brokenStruct : StructType :=
  {| Fields := [markerField "Name"; plainField "Name" "string"; plainField "Home" "Address"] |}.

(** [type Blobby struct { Data []byte `dosa:"name=data"` }] *)
Definition blobFirstStruct : StructType :=
  {| Fields := [ {| Names := ["Data"]; Typ := ArrayType None (Ident "byte");
                    Tag := Some (dosaLit "name=data") |} ] |}.

(** [Entity `dosa:"primaryKey=A"`; A string `dosa:"name=x"`; A string
    `dosa:"name=y"`]: the parser, run without declaration errors as
    FindEntities runs it, lets the repeated field name through. *)
Definition repeatedNameStruct : StructType :=
  {| Fields := [markerField "A"; taggedField "A" "string" "name=x";
                taggedField "A" "string" "name=y"] |}.

(** [Entity `dosa:"primaryKey=ID"`; ID int64; _ string `dosa:"name=x"`;
    _ string `dosa:"name=y"`]: a record the Go compiler accepts, the blank
    name being bound twice. *)
Definition blankNamesStruct : StructType :=
  {| Fields := [markerField "ID"; plainField "ID" "int64";
                taggedField "_" "string" "name=x"; taggedField "_" "string" "name=y"] |}.

(** Two marker fields in one record. *)
Definition twoMarkersStruct : StructType :=
  {| Fields := [markerField "Name"; plainField "Name" "string";
                markerField "ID"; plainField "ID" "int64"] |}.

(** A record with an ignored field and an unexported one. *)
Definition skippingStruct : StructType :=
  {| Fields := [markerField "Name"; taggedField "Cache" "Address" "-";
                plainField "Name" "string"; plainField "hidden" "Address"] |}.

(** The tree of the examples: [src] parses, [bad] holds a file with a
    syntax error. *)
Definition exampleTree (path : string) : option Reference.Directory :=
  if String.eqb path "src" then
    Some [ ("user.go", inr {| FileDecls := [GenDecl [TypeSpec "User" (IsStruct userStruct)]] |});
           ("broken.go", inr {| FileDecls := [GenDecl [TypeSpec "Broken" (IsStruct brokenStruct)]] |}) ]
  else if String.eqb path "bad" then
    Some [ ("user.go", inr {| FileDecls := [GenDecl [TypeSpec "User" (IsStruct userStruct)]] |});
           ("oops.go", inl (errorString "oops.go:1:1: expected 'package', found 'EOF'")) ]
  else None.

Definition refG : GoLib := Reference.golib exampleTree.
Definition refC : Collaborators := Reference.collaborators.

(** The table the reference implementation translates a record into (an
    empty table when translation fails). *)
Definition translated (structName : string) (structType : StructType) : Table.t :=
  match tableFromStructType (G := refG) (C := refC) structName structType with
  | inr table => table
  | inl _ => newTable "" ""
  end.

(** ** What the walk reaches, and what a translation can report *)

(** The struct type declarations [ast.Walk] reaches from a node with the
    recording visitor, in the order it visits them: through files,
    packages, blocks, declaration statements, function bodies and general
    declarations, and through nothing else. *)
Fixpoint typeSpecs (n : Node) : list (string * StructType) :=
  match n with
  | File nodes | Package nodes | BlockStmt nodes | GenDecl nodes => flat_map typeSpecs nodes
  | DeclStmt decl => typeSpecs decl
  | FuncDecl (Some body) => typeSpecs body
  | FuncDecl None => []
  | TypeSpec name (IsStruct structType) => [(name, structType)]
  | TypeSpec _ (NotStruct _) => []
  | OtherNode => []
  end.

(** The struct type declarations of everything the parser returned, in the
    order of the three range loops of FindEntities. *)
Definition parsedSpecs (packages : list ParsedPackage) : list (string * StructType) :=
  flat_map (fun pkg =>
              flat_map (fun file => flat_map typeSpecs (FileDecls file)) (PackageFiles pkg))
           packages.

Section Outcomes.
Context {G : GoLib} {C : Collaborators}.

(** The tables of the candidates among [specs] that translate. *)
Definition entitiesOf (specs : list (string * StructType)) : list Table.t :=
  flat_map (fun spec =>
              if isDosaEntity (snd spec) then
                match tableFromStructType (fst spec) (snd spec) with
                | inr table => [table]
                | inl _ => []
                end
              else []) specs.

(** The errors of the candidates among [specs] that do not translate. *)
Definition warningsOf (specs : list (string * StructType)) : list error :=
  flat_map (fun spec =>
              if isDosaEntity (snd spec) then
                match tableFromStructType (fst spec) (snd spec) with
                | inr _ => []
                | inl err => [err]
                end
              else []) specs.

(** What a visitor holds after [specs] were added to [f]. *)
Definition recorded (f f' : EntityRecordingVisitor) (specs : list (string * StructType)) : Prop :=
  Entities f' = (Entities f ++ entitiesOf specs)%list /\
  Warnings f' = (Warnings f ++ warningsOf specs)%list.

(** The candidates among [specs]. *)
Definition candidatesOf (specs : list (string * StructType)) : list (string * StructType) :=
  List.filter (fun spec => isDosaEntity (snd spec)) specs.

(** The errors [tableFromStructType structName structType] can return,
    each with the place in the function that produces it. *)
Inductive translationError (structName : string) (structType : StructType) : error -> Prop :=
| invalidStructName cause :
    NormalizeName structName = inl cause ->
    translationError structName structType (Wrapf cause "struct name is invalid" [])
| invalidEntityTag field cause :
    field ∈ Fields structType ->
    isMarkerField field = true ->
    parseEntityTag structName (fieldDosaTag field) = inl cause ->
    translationError structName structType cause
| invalidColumnType field name :
    field ∈ Fields structType ->
    isMarkerField field = false ->
    fieldDosaTag field <> "-" ->
    name ∈ Names field ->
    isUnexported name = false ->
    stringToDosaType (fieldKind field) = DosaType.Invalid ->
    translationError structName structType
      (Errorf "Column %q has invalid type %q" [name; fieldKind field])
| invalidFieldTag field name cause :
    field ∈ Fields structType ->
    isMarkerField field = false ->
    fieldDosaTag field <> "-" ->
    name ∈ Names field ->
    isUnexported name = false ->
    parseField (stringToDosaType (fieldKind field)) name (fieldDosaTag field) = inl cause ->
    translationError structName structType (Wrapf cause "column %q" [name])
| invalidTable t cause :
    EnsureValid (translateKeyName t) = Some cause ->
    translationError structName structType (Wrapf cause "failed to parse dosa object" []).

(** The table the field loop hands to the key-name translation (the table
    it started from when a field fails). *)
Definition loopTable (structName normalizedName : string) (fields : list Field) : Table.t :=
  match fieldsLoop structName fields (newTable structName normalizedName) with
  | inr t => t
  | inl _ => newTable structName normalizedName
  end.

End Outcomes.

(** * Properties *)

(** ** The type mapper *)

(** C4: stringToDosaType sends each known label to its member of the Type
    enumeration and every other string, however close to a known label,
    to Invalid. *)
Theorem stringToDosaType_known_labels_else_Invalid :
  (forall label ty, (label, ty) ∈ knownLabels -> stringToDosaType label = ty) /\
  (forall label, label ∉ map fst knownLabels -> stringToDosaType label = DosaType.Invalid).
Proof.
  split.
  - intros label ty Hin. unfold knownLabels in Hin.
    repeat (apply elem_of_cons in Hin as [Heq | Hin];
            [ injection Heq as -> ->; reflexivity | ]).
    apply elem_of_nil in Hin. contradiction.
  - intros label Hnot. unfold stringToDosaType.
    repeat match goal with
           | |- context [String.eqb label ?k] =>
             destruct (String.eqb_spec label k) as [-> | _];
             [ exfalso; apply Hnot; cbn; set_solver | ]
           end.
    reflexivity.
Qed.

Lemma stringToDosaType_case_sensitive :
  stringToDosaType "String" = DosaType.Invalid /\
  stringToDosaType "uuid" = DosaType.Invalid /\
  stringToDosaType " string" = DosaType.Invalid /\
  stringToDosaType "" = DosaType.Invalid.
Proof. repeat split. Qed.

Section Properties.
Context {G : GoLib} {C : Collaborators}.

(** ** The result monad and the two loops *)

Lemma namesLoop_app kind dosaTag names1 names2 t :
  namesLoop kind dosaTag (names1 ++ names2) t =
  bind (namesLoop kind dosaTag names1 t) (namesLoop kind dosaTag names2).
Proof.
  revert t. induction names1 as [| name names1 IH]; intros t; cbn; [reflexivity |].
  destruct (isUnexported name); [apply IH |].
  destruct (bool_decide _); [reflexivity |].
  destruct (parseField _ _ _); [reflexivity | apply IH].
Qed.

Lemma fieldsLoop_app structName fields1 fields2 t :
  fieldsLoop structName (fields1 ++ fields2) t =
  bind (fieldsLoop structName fields1 t) (fieldsLoop structName fields2).
Proof.
  revert t. induction fields1 as [| field fields1 IH]; intros t; cbn; [reflexivity |].
  destruct (fieldStep structName field t); cbn; [reflexivity | apply IH].
Qed.

Lemma fieldsLoop_cons structName field fields t :
  fieldsLoop structName (field :: fields) t =
  bind (fieldStep structName field t) (fieldsLoop structName fields).
Proof. reflexivity. Qed.

(** Two records whose fields step alike are translated alike. *)
Lemma tableFromStructType_ext structName fields1 fields2 :
  (forall t, fieldsLoop structName fields1 t = fieldsLoop structName fields2 t) ->
  tableFromStructType structName {| Fields := fields1 |} =
  tableFromStructType structName {| Fields := fields2 |}.
Proof.
  intros Hloop. unfold tableFromStructType. cbn.
  destruct (NormalizeName structName); [reflexivity |].
  rewrite Hloop. reflexivity.
Qed.

(** ** The entity heuristic *)

Lemma isDosaEntity_true_iff structType :
  isDosaEntity structType = true <->
  exists first rest lit,
    Fields structType = first :: rest /\
    (forall name, Typ first = Ident name -> name = entityName) /\
    Tag first = Some lit /\ Kind lit = STRING /\ entityTagGet lit <> "".
Proof.
  unfold isDosaEntity. split.
  - destruct (Fields structType) as [| first rest]; [discriminate |].
    intros Hacc. exists first, rest.
    assert (Hty : forall name, Typ first = Ident name -> name = entityName).
    { intros name Hname. rewrite Hname in Hacc.
      destruct (String.eqb_spec name entityName); [assumption | discriminate]. }
    destruct (match Typ first with Ident name => negb (String.eqb name entityName) | _ => false end);
      [discriminate |].
    destruct (Tag first) as [lit |]; [| discriminate].
    exists lit. destruct (bool_decide_reflect (Kind lit = STRING)); [| discriminate].
    destruct (String.eqb_spec (entityTagGet lit) ""); [discriminate |].
    repeat split; assumption.
  - intros (first & rest & lit & -> & Hty & -> & Hkind & Hget).
    assert (Hguard : match Typ first with
                     | Ident name => negb (String.eqb name entityName)
                     | _ => false end = false).
    { destruct (Typ first) as [name | | |]; try reflexivity.
      rewrite (Hty name eq_refl), String.eqb_refl. reflexivity. }
    rewrite Hguard, bool_decide_eq_true_2 by assumption. cbn.
    destruct (String.eqb_spec (entityTagGet lit) ""); [contradiction | reflexivity].
Qed.

(** C1, amended: a record is rejected, and nothing is recorded for it
    whatever the translator would have returned, exactly when it has no
    field, or its first field's type is a plain identifier other than the
    marker type name, or its first field has no string tag with a
    non-empty value under the marker key.  A first field whose type is
    not a plain identifier is not rejected for its type. *)
Theorem isDosaEntity_rejects_exactly :
  forall structType,
    (isDosaEntity structType = false <->
     (Fields structType = [] \/
      exists first rest,
        Fields structType = first :: rest /\
        ((exists name, Typ first = Ident name /\ name <> entityName) \/
         Tag first = None \/
         exists lit, Tag first = Some lit /\
                     (Kind lit <> STRING \/ entityTagGet lit = "")))) /\
    (isDosaEntity structType = false ->
     forall f name, Visit f (TypeSpec name (IsStruct structType)) = (f, false)).
Proof.
  intros structType. split.
  - rewrite <- not_true_iff_false, isDosaEntity_true_iff. split.
    + intros Hno. destruct (Fields structType) as [| first rest]; [left; reflexivity |].
      right. exists first, rest. split; [reflexivity |].
      destruct (Typ first) as [name | | |] eqn:Hty.
      1: destruct (decide (name = entityName)) as [-> | Hne];
           [| left; exists name; split; [reflexivity | assumption]].
      all: right;
        (destruct (Tag first) as [lit |] eqn:Htag; [| left; reflexivity]);
        right; exists lit; (split; [reflexivity |]);
        (destruct (decide (Kind lit = STRING)) as [Hk | Hk]; [| left; assumption]);
        (destruct (decide (entityTagGet lit = "")) as [Hg | Hg]; [right; assumption |]);
        exfalso; apply Hno; exists first, rest, lit;
        (repeat split; try assumption; try reflexivity);
        intros name' Hname'; congruence.
    + intros [Hnil | (first & rest & Hfields & Hwhy)]
             (first' & rest' & lit' & Hfields' & Hty & Htag & Hkind & Hget).
      * congruence.
      * rewrite Hfields in Hfields'. injection Hfields' as <- <-.
        destruct Hwhy as [(name & Hname & Hne) | [Hnone | (lit & Hlit & [Hk | Hg])]].
        -- apply Hne, Hty, Hname.
        -- congruence.
        -- rewrite Htag in Hlit. injection Hlit as <-. contradiction.
        -- rewrite Htag in Hlit. injection Hlit as <-. contradiction.
  - intros Hrej f name. cbn. rewrite Hrej. reflexivity.
Qed.

(** ** The recorder *)

Lemma walkDecls_app decls1 decls2 erv :
  walkDecls (decls1 ++ decls2) erv = walkDecls decls2 (walkDecls decls1 erv).
Proof. unfold walkDecls. apply fold_left_app. Qed.

Lemma Walk_GenDecl specs erv :
  Walk (GenDecl specs) erv = fold_left (fun acc spec => Walk spec acc) specs erv.
Proof. reflexivity. Qed.

Lemma Walk_TypeSpec name type erv :
  Walk (TypeSpec name type) erv = fst (Visit erv (TypeSpec name type)).
Proof.
  cbn. destruct type as [structType | e]; [| reflexivity].
  destruct (isDosaEntity structType); [| reflexivity].
  destruct (tableFromStructType name structType); reflexivity.
Qed.

(** C3: for a candidate declaration a failed translation adds its error
    to the warnings and no entity, a successful one adds the entity and
    no warning; either way the declarations after it are walked from the
    state so obtained. *)
Theorem Visit_candidate_records_outcome :
  forall (f : EntityRecordingVisitor) name structType before after,
    isDosaEntity structType = true ->
    let decl := GenDecl [TypeSpec name (IsStruct structType)] in
    let f' := walkDecls before f in
    match tableFromStructType name structType with
    | inl err =>
      Visit f (TypeSpec name (IsStruct structType)) =
        ({| Entities := Entities f; Warnings := Warnings f ++ [err] |}, false) /\
      walkDecls (before ++ decl :: after) f =
        walkDecls after {| Entities := Entities f'; Warnings := Warnings f' ++ [err] |}
    | inr table =>
      Visit f (TypeSpec name (IsStruct structType)) =
        ({| Entities := Entities f ++ [table]; Warnings := Warnings f |}, false) /\
      walkDecls (before ++ decl :: after) f =
        walkDecls after {| Entities := Entities f' ++ [table]; Warnings := Warnings f' |}
    end.
Proof.
  intros f name structType before after Hcand decl f'.
  assert (Hwalk : walkDecls (before ++ decl :: after) f = walkDecls after (Walk decl f')).
  { rewrite walkDecls_app. reflexivity. }
  rewrite Hwalk. subst decl. rewrite Walk_GenDecl. cbn [fold_left].
  rewrite Walk_TypeSpec. cbn [Visit]. rewrite Hcand.
  destruct (tableFromStructType name structType); split; reflexivity.
Qed.

(** ** FindEntities *)

(** C9: when the parser reports an error FindEntities returns it as the
    fatal error, with no entities and no warnings, whatever was parsed. *)
Theorem FindEntities_parse_error_is_fatal :
  forall path excludes packages err,
    parser_ParseDir path (fileFilter excludes) = (packages, Some err) ->
    FindEntities path excludes = ([], [], Some err).
Proof.
  intros path excludes packages err Hparse.
  unfold FindEntities. rewrite Hparse. reflexivity.
Qed.

Lemma FindEntities_error_is_parser_error path excludes :
  snd (FindEntities path excludes) = snd (parser_ParseDir path (fileFilter excludes)).
Proof.
  unfold FindEntities.
  destruct (parser_ParseDir path (fileFilter excludes)) as [packages [err |]]; reflexivity.
Qed.

(** C10: when filepath.Match reports a malformed pattern (no match, and
    an error) the filter drops the error and lets the file through; the
    fatal error of FindEntities is the parser's and nothing else. *)
Theorem malformed_exclusion_pattern_is_ignored :
  forall excludes fileName err,
    filepath_Match excludes fileName = (false, Some err) ->
    fileFilter excludes fileName = true /\
    forall path,
      snd (FindEntities path excludes) = snd (parser_ParseDir path (fileFilter excludes)).
Proof.
  intros excludes fileName err Hmatch. split.
  - unfold fileFilter. rewrite Hmatch.
    destruct (String.eqb excludes ""); reflexivity.
  - intros path. apply FindEntities_error_is_parser_error.
Qed.

(** ** The field loop: skipped fields and names *)

Lemma fieldStep_ignored structName field t :
  fieldDosaTag field = "-" -> fieldStep structName field t = Ok t.
Proof. intros Htag. unfold fieldStep. rewrite Htag. reflexivity. Qed.

(** C6: a field whose tag value under the marker key is the single dash
    is skipped: the record is translated exactly as the record without
    that field, so the field adds no column, no table entry and no
    error.  (strings.TrimSpace leaves the dash as it is.) *)
Theorem ignored_field_contributes_nothing :
  forall structName before field after lit,
    strings_TrimSpace "-" = "-" ->
    Tag field = Some lit ->
    entityTagGet lit = "-" ->
    tableFromStructType structName {| Fields := before ++ field :: after |} =
    tableFromStructType structName {| Fields := before ++ after |}.
Proof.
  intros structName before field after lit Htrim Htag Hget.
  apply tableFromStructType_ext. intros t.
  rewrite !fieldsLoop_app.
  destruct (fieldsLoop structName before t) as [err | t']; [reflexivity |].
  cbn [bind]. rewrite fieldsLoop_cons, fieldStep_ignored; [reflexivity |].
  unfold fieldDosaTag. rewrite Htag, Hget. exact Htrim.
Qed.

Lemma namesLoop_skip_unexported kind dosaTag names1 name names2 t :
  isUnexported name = true ->
  namesLoop kind dosaTag (names1 ++ name :: names2) t =
  namesLoop kind dosaTag (names1 ++ names2) t.
Proof.
  intros Hlow. rewrite !namesLoop_app.
  destruct (namesLoop kind dosaTag names1 t) as [err | t']; [reflexivity |].
  cbn. rewrite Hlow. reflexivity.
Qed.

(** ** The mapping tables *)

Lemma namesLoop_tables kind dosaTag names t t' :
  namesLoop kind dosaTag names t = inr t' ->
  Table.FieldToCol t' = fieldToColOf (nameBindings kind dosaTag names) (Table.FieldToCol t) /\
  Table.ColToField t' = colToFieldOf (nameBindings kind dosaTag names) (Table.ColToField t).
Proof.
  revert t. induction names as [| name names IH]; intros t; cbn.
  - intros [= <-]. split; reflexivity.
  - destruct (isUnexported name); [apply IH |].
    destruct (bool_decide _); [discriminate |].
    destruct (parseField _ _ _) as [err | cd]; [discriminate |].
    intros Hloop. apply IH in Hloop. exact Hloop.
Qed.

Lemma fieldStep_tables structName field t t' :
  fieldStep structName field t = inr t' ->
  Table.FieldToCol t' = fieldToColOf (fieldBindings field) (Table.FieldToCol t) /\
  Table.ColToField t' = colToFieldOf (fieldBindings field) (Table.ColToField t).
Proof.
  unfold fieldStep, fieldBindings.
  destruct (String.eqb (fieldDosaTag field) "-").
  - intros [= <-]. split; reflexivity.
  - destruct (String.eqb (fieldKind field) entityName).
    + destruct (parseEntityTag _ _) as [err | [name key]]; [discriminate |].
      intros [= <-]. split; reflexivity.
    + apply namesLoop_tables.
Qed.

Lemma fieldsLoop_tables structName fields t t' :
  fieldsLoop structName fields t = inr t' ->
  Table.FieldToCol t' = fieldToColOf (exportedBindings fields) (Table.FieldToCol t) /\
  Table.ColToField t' = colToFieldOf (exportedBindings fields) (Table.ColToField t).
Proof.
  revert t. induction fields as [| field fields IH]; intros t; cbn.
  - intros [= <-]. split; reflexivity.
  - destruct (fieldStep structName field t) as [err | t1] eqn:Hstep; [discriminate |].
    cbn. intros Hloop. apply IH in Hloop as [Hf Hc].
    apply fieldStep_tables in Hstep as [Hf1 Hc1].
    unfold fieldToColOf, colToFieldOf in *.
    rewrite !fold_left_app, <- Hf1, <- Hc1. split; assumption.
Qed.

Lemma nameBindings_exported kind dosaTag names n c :
  (n, c) ∈ nameBindings kind dosaTag names ->
  n ∈ names /\ isUnexported n = false /\
  exists cd, parseField (stringToDosaType kind) n dosaTag = inr cd /\
             ColumnDefinition.Name cd = c.
Proof.
  unfold nameBindings. rewrite list_elem_of_In, in_flat_map.
  intros (name & Hname & Hin). apply list_elem_of_In in Hname.
  destruct (isUnexported name) eqn:Hlow; [destruct Hin |].
  destruct (parseField _ name _) as [err | cd] eqn:Hparse; [destruct Hin |].
  destruct Hin as [[= <- <-] | []]. eauto.
Qed.

Lemma exportedBindings_exported fields n c :
  (n, c) ∈ exportedBindings fields ->
  exists field, field ∈ fields /\ fieldDosaTag field <> "-" /\
                fieldKind field <> entityName /\
                n ∈ Names field /\ isUnexported n = false.
Proof.
  unfold exportedBindings. rewrite list_elem_of_In, in_flat_map.
  intros (field & Hfield & Hin). apply list_elem_of_In in Hfield.
  exists field. unfold fieldBindings in Hin.
  destruct (String.eqb_spec (fieldDosaTag field) "-"); [destruct Hin |].
  destruct (String.eqb_spec (fieldKind field) entityName); [destruct Hin |].
  apply list_elem_of_In, nameBindings_exported in Hin as (Hn & Hlow & _).
  repeat split; assumption.
Qed.

End Properties.

(** ** Tables built by registering pairs *)

Lemma fieldToColOf_snoc pairs n c m :
  fieldToColOf (pairs ++ [(n, c)]) m = <[n := c]> (fieldToColOf pairs m).
Proof. unfold fieldToColOf. rewrite fold_left_app. reflexivity. Qed.

Lemma colToFieldOf_snoc pairs n c m :
  colToFieldOf (pairs ++ [(n, c)]) m = <[c := n]> (colToFieldOf pairs m).
Proof. unfold colToFieldOf. rewrite fold_left_app. reflexivity. Qed.

Lemma fieldToColOf_elem pairs n c :
  fieldToColOf pairs ∅ !! n = Some c -> (n, c) ∈ pairs.
Proof.
  revert n c. induction pairs as [| [n0 c0] pairs IH] using rev_ind; intros n c.
  - cbn. rewrite lookup_empty. discriminate.
  - rewrite fieldToColOf_snoc, elem_of_app, list_elem_of_singleton.
    destruct (decide (n0 = n)) as [-> | Hne].
    + rewrite lookup_insert_eq. intros [= <-]. right. reflexivity.
    + rewrite lookup_insert_ne by assumption. intros Hl. left. apply IH, Hl.
Qed.

Lemma colToFieldOf_elem pairs n c :
  colToFieldOf pairs ∅ !! c = Some n -> (n, c) ∈ pairs.
Proof.
  revert n c. induction pairs as [| [n0 c0] pairs IH] using rev_ind; intros n c.
  - cbn. rewrite lookup_empty. discriminate.
  - rewrite colToFieldOf_snoc, elem_of_app, list_elem_of_singleton.
    destruct (decide (c0 = c)) as [-> | Hne].
    + rewrite lookup_insert_eq. intros [= <-]. right. reflexivity.
    + rewrite lookup_insert_ne by assumption. intros Hl. left. apply IH, Hl.
Qed.

Lemma oneToOne_app_l pairs1 pairs2 : oneToOne (pairs1 ++ pairs2) -> oneToOne pairs1.
Proof.
  intros Hone n c n' c' H1 H2. apply Hone; apply elem_of_app; left; assumption.
Qed.

Lemma fieldToColOf_lookup pairs n c :
  oneToOne pairs -> (n, c) ∈ pairs -> fieldToColOf pairs ∅ !! n = Some c.
Proof.
  revert n c. induction pairs as [| [n0 c0] pairs IH] using rev_ind; intros n c Hone.
  - intros Hin. apply elem_of_nil in Hin. contradiction.
  - rewrite fieldToColOf_snoc. intros Hin.
    destruct (decide (n0 = n)) as [-> | Hne].
    + rewrite lookup_insert_eq. f_equal.
      apply (Hone n c0 n c); [| assumption | reflexivity];
      apply elem_of_app; right; apply list_elem_of_singleton; reflexivity.
    + rewrite lookup_insert_ne by assumption.
      apply IH; [eapply oneToOne_app_l, Hone |].
      apply elem_of_app in Hin as [Hin | Hin]; [assumption |].
      apply list_elem_of_singleton in Hin. congruence.
Qed.

Lemma colToFieldOf_lookup pairs n c :
  oneToOne pairs -> (n, c) ∈ pairs -> colToFieldOf pairs ∅ !! c = Some n.
Proof.
  revert n c. induction pairs as [| [n0 c0] pairs IH] using rev_ind; intros n c Hone.
  - intros Hin. apply elem_of_nil in Hin. contradiction.
  - rewrite colToFieldOf_snoc. intros Hin.
    destruct (decide (c0 = c)) as [-> | Hne].
    + rewrite lookup_insert_eq. f_equal.
      apply (Hone n0 c n c); [| assumption | reflexivity];
      apply elem_of_app; right; apply list_elem_of_singleton; reflexivity.
    + rewrite lookup_insert_ne by assumption.
      apply IH; [eapply oneToOne_app_l, Hone |].
      apply elem_of_app in Hin as [Hin | Hin]; [assumption |].
      apply list_elem_of_singleton in Hin. congruence.
Qed.

Section Translation.
Context {G : GoLib} {C : Collaborators}.

(** ** Names and columns through the loops *)

Lemma namesLoop_name_key kind dosaTag names t t' :
  namesLoop kind dosaTag names t = inr t' ->
  Table.Name t' = Table.Name t /\ Table.Key t' = Table.Key t.
Proof.
  revert t. induction names as [| name names IH]; intros t; cbn.
  - intros [= <-]. split; reflexivity.
  - destruct (isUnexported name); [apply IH |].
    destruct (bool_decide _); [discriminate |].
    destruct (parseField _ _ _) as [err | cd]; [discriminate |].
    intros Hloop. apply IH in Hloop. exact Hloop.
Qed.

Lemma fieldStep_marker structName field t :
  isMarkerField field = true ->
  fieldStep structName field t =
  match parseEntityTag structName (fieldDosaTag field) with
  | inl err => Err err
  | inr (name, key) => Ok (setNameKey t name key)
  end.
Proof.
  unfold isMarkerField, fieldStep. intros [Hneg Hkind]%andb_true_iff.
  apply negb_true_iff in Hneg. rewrite Hneg, Hkind. reflexivity.
Qed.

Lemma fieldStep_not_marker structName field t t' :
  isMarkerField field = false ->
  fieldStep structName field t = inr t' ->
  Table.Name t' = Table.Name t /\ Table.Key t' = Table.Key t.
Proof.
  unfold isMarkerField, fieldStep.
  destruct (String.eqb (fieldDosaTag field) "-"); cbn.
  - intros _ [= <-]. split; reflexivity.
  - intros ->. apply namesLoop_name_key.
Qed.

Lemma fieldsLoop_no_marker structName fields t t' :
  Forall (fun field => isMarkerField field = false) fields ->
  fieldsLoop structName fields t = inr t' ->
  Table.Name t' = Table.Name t /\ Table.Key t' = Table.Key t.
Proof.
  intros Hno. revert t. induction Hno as [| field fields Hfield _ IH]; intros t; cbn.
  - intros [= <-]. split; reflexivity.
  - destruct (fieldStep structName field t) as [err | t1] eqn:Hstep; [discriminate |].
    cbn. intros Hloop. apply IH in Hloop as [-> ->].
    eapply fieldStep_not_marker; eassumption.
Qed.

(** What [tableFromStructType] returns on success went through the field
    loop, the key-name translation and the validity check. *)
Lemma tableFromStructType_inr structName structType table :
  tableFromStructType structName structType = inr table ->
  exists normalizedName t,
    NormalizeName structName = inr normalizedName /\
    fieldsLoop structName (Fields structType) (newTable structName normalizedName) = inr t /\
    table = translateKeyName t /\ EnsureValid (translateKeyName t) = None.
Proof.
  unfold tableFromStructType.
  destruct (NormalizeName structName) as [err | normalizedName]; [discriminate |].
  destruct (fieldsLoop _ _ _) as [err | t] eqn:Hloop; [discriminate |]. cbn.
  destruct (EnsureValid (translateKeyName t)) eqn:Hvalid; [discriminate |].
  intros [= <-]. exists normalizedName, t. repeat split; assumption.
Qed.

(** C8: the translator accepts a record with several marker fields; the
    step of a marker field replaces whatever name and key the table has,
    so the table handed to the key-name translation carries the name and
    the key parsed from the last marker field. *)
Theorem later_marker_field_overwrites :
  forall structName before marker after name key table,
    isMarkerField marker = true ->
    parseEntityTag structName (fieldDosaTag marker) = inr (name, key) ->
    Forall (fun field => isMarkerField field = false) after ->
    tableFromStructType structName {| Fields := before ++ marker :: after |} = inr table ->
    (forall t, fieldStep structName marker t = Ok (setNameKey t name key)) /\
    exists t, table = translateKeyName t /\ Table.Name t = name /\ Table.Key t = key.
Proof.
  intros structName before marker after name key table Hmarker Hparse Hafter Htable.
  assert (Hstep : forall t, fieldStep structName marker t = Ok (setNameKey t name key)).
  { intros t. rewrite fieldStep_marker, Hparse by assumption. reflexivity. }
  split; [exact Hstep |].
  apply tableFromStructType_inr in Htable as (normalizedName & t & _ & Hloop & -> & _).
  exists t. split; [reflexivity |]. cbn [Fields] in Hloop.
  rewrite fieldsLoop_app in Hloop.
  destruct (fieldsLoop structName before _) as [err | t1]; [discriminate |].
  cbn [bind] in Hloop. rewrite fieldsLoop_cons, Hstep in Hloop. cbn in Hloop.
  apply fieldsLoop_no_marker in Hloop as [-> ->]; [| assumption].
  split; reflexivity.
Qed.

(** C7: a name with a lower-case first rune is skipped: the record is
    translated exactly as the record whose field does not bind that name
    (same table or same error), and the field-to-column table built by
    the field loop has no entry for the name. *)
Theorem unexported_name_is_skipped :
  forall structName before field after (names1 : list string) name names2,
    Names field = (names1 ++ name :: names2)%list ->
    isUnexported name = true ->
    tableFromStructType structName {| Fields := before ++ field :: after |} =
    tableFromStructType structName
      {| Fields := before ++ withNames field (names1 ++ names2) :: after |} /\
    forall normalizedName t,
      fieldsLoop structName (before ++ field :: after) (newTable structName normalizedName) = inr t ->
      Table.FieldToCol t !! name = None.
Proof.
  intros structName before field after names1 name names2 Hnames Hlow. split.
  - apply tableFromStructType_ext. intros t. rewrite !fieldsLoop_app.
    destruct (fieldsLoop structName before t) as [err | t']; [reflexivity |].
    cbn [bind]. rewrite !fieldsLoop_cons. f_equal.
    unfold fieldStep, fieldDosaTag, fieldKind. cbn [withNames Names Typ Tag].
    rewrite Hnames, namesLoop_skip_unexported by assumption. reflexivity.
  - intros normalizedName t Hloop.
    apply fieldsLoop_tables in Hloop as [Hf _]. cbn in Hf.
    destruct (Table.FieldToCol t !! name) as [c |] eqn:Hlook; [| reflexivity].
    rewrite Hf in Hlook. apply fieldToColOf_elem in Hlook.
    apply exportedBindings_exported in Hlook as (_ & _ & _ & _ & _ & Hexp).
    congruence.
Qed.


(** ** Column types *)

Lemma namesLoop_columns_valid kind dosaTag names t t' :
  (forall typ name tag cd,
      parseField typ name tag = inr cd -> ColumnDefinition.Type_ cd = typ) ->
  Forall (fun cd => ColumnDefinition.Type_ cd <> DosaType.Invalid) (Table.Columns t) ->
  namesLoop kind dosaTag names t = inr t' ->
  Forall (fun cd => ColumnDefinition.Type_ cd <> DosaType.Invalid) (Table.Columns t').
Proof.
  intros Htype. revert t. induction names as [| name names IH]; intros t Hvalid; cbn.
  - intros [= <-]. exact Hvalid.
  - destruct (isUnexported name); [apply IH, Hvalid |].
    destruct (bool_decide_reflect (stringToDosaType kind = DosaType.Invalid)) as [| Hok];
      [discriminate |].
    destruct (parseField _ _ _) as [err | cd] eqn:Hparse; [discriminate |].
    apply IH. cbn. apply Forall_app. split; [exact Hvalid |].
    constructor; [| constructor]. rewrite (Htype _ _ _ _ Hparse). exact Hok.
Qed.

Lemma fieldsLoop_columns_valid structName fields t t' :
  (forall typ name tag cd,
      parseField typ name tag = inr cd -> ColumnDefinition.Type_ cd = typ) ->
  Forall (fun cd => ColumnDefinition.Type_ cd <> DosaType.Invalid) (Table.Columns t) ->
  fieldsLoop structName fields t = inr t' ->
  Forall (fun cd => ColumnDefinition.Type_ cd <> DosaType.Invalid) (Table.Columns t').
Proof.
  intros Htype. revert t. induction fields as [| field fields IH]; intros t Hvalid; cbn.
  - intros [= <-]. exact Hvalid.
  - destruct (fieldStep structName field t) as [err | t1] eqn:Hstep; [discriminate |].
    cbn. apply IH. unfold fieldStep in Hstep.
    destruct (String.eqb (fieldDosaTag field) "-"); [injection Hstep as <-; exact Hvalid |].
    destruct (String.eqb (fieldKind field) entityName).
    + destruct (parseEntityTag _ _) as [err | [name key]]; [discriminate |].
      injection Hstep as <-. exact Hvalid.
    + eapply namesLoop_columns_valid; eassumption.
Qed.

Lemma namesLoop_invalid_type_fails kind dosaTag names name t :
  stringToDosaType kind = DosaType.Invalid ->
  name ∈ names -> isUnexported name = false ->
  namesLoop kind dosaTag names t = inl (Errorf "Column %q has invalid type %q"
                                   [hd name (filter (fun n => isUnexported n = false) names); kind]).
Proof.
  intros Hinvalid Hin Hexp. revert Hin. induction names as [| n names IH]; intros Hin.
  - apply elem_of_nil in Hin. contradiction.
  - cbn [namesLoop]. rewrite filter_cons.
    destruct (isUnexported n) eqn:Hn.
    + rewrite decide_False by congruence. apply IH.
      apply elem_of_cons in Hin as [-> | Hin]; [congruence | assumption].
    + rewrite decide_True by reflexivity. rewrite Hinvalid. reflexivity.
Qed.

(** C2: every column of a translated record has a type other than
    Invalid (parseField keeping the type it is given, the key-name
    translation keeping the columns); and a record with a non-ignored,
    non-marker field that binds an exported name and whose type label
    maps to Invalid is not translated: the translator returns an error. *)
Theorem translated_columns_are_never_Invalid :
  (forall typ name tag cd,
      parseField typ name tag = inr cd -> ColumnDefinition.Type_ cd = typ) ->
  (forall t, Table.Columns (translateKeyName t) = Table.Columns t) ->
  (forall structName structType table,
      isDosaEntity structType = true ->
      tableFromStructType structName structType = inr table ->
      Forall (fun cd => ColumnDefinition.Type_ cd <> DosaType.Invalid) (Table.Columns table)) /\
  (forall structName before field after name,
      fieldDosaTag field <> "-" ->
      fieldKind field <> entityName ->
      stringToDosaType (fieldKind field) = DosaType.Invalid ->
      name ∈ Names field -> isUnexported name = false ->
      exists err,
        tableFromStructType structName {| Fields := before ++ field :: after |} = inl err).
Proof.
  intros Htype Hkeep. split.
  - intros structName structType table _ Htable.
    apply tableFromStructType_inr in Htable as (normalizedName & t & _ & Hloop & -> & _).
    rewrite Hkeep. eapply fieldsLoop_columns_valid; [exact Htype | | exact Hloop].
    cbn. constructor.
  - intros structName before field after name Htag Hkind Hinvalid Hin Hexp.
    unfold tableFromStructType.
    destruct (NormalizeName structName) as [err | normalizedName]; [eauto |].
    cbn [Fields]. rewrite fieldsLoop_app.
    destruct (fieldsLoop structName before _) as [err | t1]; [cbn; eauto |].
    cbn [bind]. rewrite fieldsLoop_cons.
    unfold fieldStep.
    apply String.eqb_neq in Htag, Hkind. rewrite Htag, Hkind.
    erewrite namesLoop_invalid_type_fails by eassumption. cbn. eauto.
Qed.

End Translation.

(** * The properties on concrete declarations *)

Section Examples.
#[local] Existing Instance refG.
#[local] Existing Instance refC.

(** ** The reference collaborators meet the assumptions made above *)

Lemma fieldParser_keeps_type typ name tag cd :
  parseField typ name tag = inr cd -> ColumnDefinition.Type_ cd = typ.
Proof.
  cbn. unfold Reference.fieldParser.
  destruct (Reference.stripPrefix "name=" tag).
  - intros [= <-]. reflexivity.
  - destruct (String.eqb tag ""); [| discriminate].
    destruct (Reference.normalizeName name); [discriminate |].
    intros [= <-]. reflexivity.
Qed.

Lemma keyNameTranslator_keeps_columns t :
  Table.Columns (translateKeyName t) = Table.Columns t.
Proof. reflexivity. Qed.

Lemma keyNameTranslator_keeps_tables t :
  Table.FieldToCol (translateKeyName t) = Table.FieldToCol t /\
  Table.ColToField (translateKeyName t) = Table.ColToField t.
Proof. split; reflexivity. Qed.

Lemma oneToOne_singleton n c : oneToOne [(n, c)].
Proof.
  intros n1 c1 n2 c2 H1 H2.
  apply list_elem_of_singleton in H1, H2.
  injection H1 as -> ->. injection H2 as -> ->. split; reflexivity.
Qed.

(** ** The scenarios of the spec *)

(** Scenario A: one entity, one column, [Name] and [name] mapped to each
    other, the key on [name]. *)
Example scenario_A :
  tableFromStructType "User" userStruct = inr (translated "User" userStruct) /\
  Table.Columns (translated "User" userStruct) = [ColumnDefinition.mk "name" DosaType.String] /\
  Table.FieldToCol (translated "User" userStruct) !! "Name" = Some "name" /\
  Table.ColToField (translated "User" userStruct) !! "name" = Some "Name" /\
  Table.Key (translated "User" userStruct) =
    Some {| PartitionKeys := ["name"]; ClusteringKeys := [] |}.
Proof. repeat split; vm_compute; reflexivity. Qed.

(** Scenario B: a field of an unrecognised type gives a warning that
    names the field, and no entity. *)
Example scenario_B :
  tableFromStructType "Broken" brokenStruct =
  inl (Errorf "Column %q has invalid type %q" ["Home"; "Address"]).
Proof. vm_compute. reflexivity. Qed.

(** Scenario D: a record without fields is no candidate. *)
Example scenario_D : isDosaEntity {| Fields := [] |} = false.
Proof. reflexivity. Qed.

(** The tree [src] holds one record that translates and one that does
    not: one entity, one warning, no fatal error. *)
Example FindEntities_src :
  FindEntities "src" "" =
  ([translated "User" userStruct],
   [Errorf "Column %q has invalid type %q" ["Home"; "Address"]], None).
Proof. vm_compute. reflexivity. Qed.

(** With [broken.go] excluded only the entity is left. *)
Example FindEntities_src_excluding :
  FindEntities "src" "broken*" = ([translated "User" userStruct], [], None).
Proof. vm_compute. reflexivity. Qed.

(** ** The properties at concrete inputs *)

(** C1, as stated, fails: the first field of [blobFirstStruct] has type
    [[]byte], not the marker type, yet the record is a candidate and the
    translator runs on it (its error is recorded). *)
Lemma non_identifier_first_field_is_accepted :
  firstFieldIsTaggedMarker blobFirstStruct = false /\
  isDosaEntity blobFirstStruct = true /\
  Visit {| Entities := []; Warnings := [] |} (TypeSpec "Blobby" (IsStruct blobFirstStruct)) =
  ({| Entities := [];
      Warnings := [Wrapf (errorString "EntityDefinition has nil PrimaryKey")
                         "failed to parse dosa object" []] |}, false).
Proof. repeat split; vm_compute; reflexivity. Qed.

Lemma isDosaEntity_rejects_exactly_witness :
  isDosaEntity {| Fields := [plainField "Name" "string"] |} = false /\
  forall f name,
    Visit f (TypeSpec name (IsStruct {| Fields := [plainField "Name" "string"] |})) = (f, false).
Proof.
  pose proof (isDosaEntity_rejects_exactly (G := refG) (C := refC)
                {| Fields := [plainField "Name" "string"] |}) as [Hiff Hvisit].
  assert (Hrej : isDosaEntity {| Fields := [plainField "Name" "string"] |} = false).
  { apply Hiff. right. exists (plainField "Name" "string"), [].
    split; [reflexivity |]. left. exists "string". split; [reflexivity |].
    vm_compute. discriminate. }
  split; [exact Hrej | exact (Hvisit Hrej)].
Defined.

Lemma translated_columns_are_never_Invalid_witness :
  Forall (fun cd => ColumnDefinition.Type_ cd <> DosaType.Invalid)
         (Table.Columns (translated "User" userStruct)) /\
  exists err, tableFromStructType "Broken" brokenStruct = inl err.
Proof.
  destruct (translated_columns_are_never_Invalid (G := refG) (C := refC)
              fieldParser_keeps_type keyNameTranslator_keeps_columns) as [Hcols Hfail].
  split.
  - apply (Hcols "User" userStruct); vm_compute; reflexivity.
  - apply (Hfail "Broken" [markerField "Name"; plainField "Name" "string"]
                 (plainField "Home" "Address") [] "Home").
    + vm_compute. discriminate.
    + vm_compute. discriminate.
    + reflexivity.
    + apply list_elem_of_here.
    + reflexivity.
Defined.

Lemma Visit_candidate_records_outcome_witness :
  exists err,
    tableFromStructType "Broken" brokenStruct = inl err /\
    let user := GenDecl [TypeSpec "User" (IsStruct userStruct)] in
    let start := {| Entities := []; Warnings := [] |} in
    walkDecls ([user] ++ GenDecl [TypeSpec "Broken" (IsStruct brokenStruct)] :: [user]) start =
    walkDecls [user] {| Entities := Entities (walkDecls [user] start);
                        Warnings := Warnings (walkDecls [user] start) ++ [err] |}.
Proof.
  pose proof (Visit_candidate_records_outcome (G := refG) (C := refC)
                {| Entities := []; Warnings := [] |} "Broken" brokenStruct
                [GenDecl [TypeSpec "User" (IsStruct userStruct)]]
                [GenDecl [TypeSpec "User" (IsStruct userStruct)]]
                ltac:(vm_compute; reflexivity)) as Houtcome.
  cbv zeta in Houtcome.
  destruct (tableFromStructType "Broken" brokenStruct) as [err | table] eqn:Htranslate.
  - exists err. split; [reflexivity | exact (proj2 Houtcome)].
  - exfalso. vm_compute in Htranslate. discriminate Htranslate.
Defined.

(** C5, as stated, fails: [repeatedNameStruct] is translated, the column
    [x] maps to the field [A], and the field [A] maps to the column [y]. *)
Lemma repeated_field_name_breaks_inverse :
  tableFromStructType "Pair" repeatedNameStruct = inr (translated "Pair" repeatedNameStruct) /\
  Table.ColToField (translated "Pair" repeatedNameStruct) !! "x" = Some "A" /\
  Table.FieldToCol (translated "Pair" repeatedNameStruct) !! "A" = Some "y" /\
  ~ exactInverses (translated "Pair" repeatedNameStruct).
Proof.
  assert (Hx : Table.ColToField (translated "Pair" repeatedNameStruct) !! "x" = Some "A")
    by (vm_compute; reflexivity).
  assert (Hy : Table.FieldToCol (translated "Pair" repeatedNameStruct) !! "A" = Some "y")
    by (vm_compute; reflexivity).
  split; [vm_compute; reflexivity |].
  split; [exact Hx |]. split; [exact Hy |].
  intros Hinv. apply Hinv in Hx. rewrite Hy in Hx. discriminate Hx.
Qed.


Lemma ignored_field_contributes_nothing_witness :
  tableFromStructType "Skipping" skippingStruct =
  tableFromStructType "Skipping"
    {| Fields := [markerField "Name"; plainField "Name" "string"; plainField "hidden" "Address"] |}.
Proof.
  apply (ignored_field_contributes_nothing (G := refG) (C := refC) "Skipping"
           [markerField "Name"] (taggedField "Cache" "Address" "-")
           [plainField "Name" "string"; plainField "hidden" "Address"]
           (dosaLit "-")).
  - vm_compute. reflexivity.
  - reflexivity.
  - vm_compute. reflexivity.
Defined.

Lemma unexported_name_is_skipped_witness :
  tableFromStructType "Skipping" skippingStruct =
  tableFromStructType "Skipping"
    {| Fields := [markerField "Name"; taggedField "Cache" "Address" "-";
                  plainField "Name" "string";
                  withNames (plainField "hidden" "Address") []] |}.
Proof.
  apply (proj1 (unexported_name_is_skipped (G := refG) (C := refC) "Skipping"
                  [markerField "Name"; taggedField "Cache" "Address" "-";
                   plainField "Name" "string"]
                  (plainField "hidden" "Address") [] [] "hidden" []
                  eq_refl ltac:(vm_compute; reflexivity))).
Defined.

Lemma later_marker_field_overwrites_witness :
  exists t, translated "Event" twoMarkersStruct = translateKeyName t /\
            Table.Name t = "event" /\
            Table.Key t = Some {| PartitionKeys := ["ID"]; ClusteringKeys := [] |}.
Proof.
  apply (later_marker_field_overwrites (G := refG) (C := refC) "Event"
           [markerField "Name"; plainField "Name" "string"] (markerField "ID")
           [plainField "ID" "int64"]).
  - vm_compute. reflexivity.
  - vm_compute. reflexivity.
  - repeat constructor.
  - vm_compute. reflexivity.
Defined.

Lemma FindEntities_parse_error_is_fatal_witness :
  FindEntities "bad" "" =
  ([], [], Some (errorString "oops.go:1:1: expected 'package', found 'EOF'")).
Proof.
  eapply (FindEntities_parse_error_is_fatal (G := refG) (C := refC)).
  vm_compute. reflexivity.
Defined.

Lemma malformed_exclusion_pattern_is_ignored_witness :
  fileFilter "[" "user.go" = true /\
  forall path,
    snd (FindEntities path "[") = snd (parser_ParseDir path (fileFilter "[")).
Proof.
  apply (malformed_exclusion_pattern_is_ignored (G := refG) (C := refC)
           "[" "user.go" Reference.ErrBadPattern).
  vm_compute. reflexivity.
Defined.

End Examples.


(** * Further properties of finder.go *)

Local Open Scope list_scope.

(** ** The walk *)

(** Induction over syntax trees, the children of a node first. *)
Lemma Node_induction (P : Node -> Prop) :
  (forall decls, Forall P decls -> P (File decls)) ->
  (forall files, Forall P files -> P (Package files)) ->
  (forall stmts, Forall P stmts -> P (BlockStmt stmts)) ->
  (forall decl, P decl -> P (DeclStmt decl)) ->
  (forall body, P body -> P (FuncDecl (Some body))) ->
  P (FuncDecl None) ->
  (forall specs, Forall P specs -> P (GenDecl specs)) ->
  (forall name type, P (TypeSpec name type)) ->
  P OtherNode ->
  forall n, P n.
Proof.
  intros HFile HPackage HBlock HDecl HFunc HFuncNone HGen HSpec HOther.
  fix IH 1. intros n.
  assert (Hall : forall nodes, Forall P nodes).
  { intros nodes. induction nodes as [| node nodes IHnodes]; constructor;
      [apply IH | exact IHnodes]. }
  destruct n as [decls | files | stmts | decl | [body |] | specs | name type |].
  - apply HFile, Hall.
  - apply HPackage, Hall.
  - apply HBlock, Hall.
  - apply HDecl, IH.
  - apply HFunc, IH.
  - exact HFuncNone.
  - apply HGen, Hall.
  - apply HSpec.
  - exact HOther.
Qed.

Section Recorder.
Context {G : GoLib} {C : Collaborators}.

Lemma entitiesOf_app specs1 specs2 :
  entitiesOf (specs1 ++ specs2) = entitiesOf specs1 ++ entitiesOf specs2.
Proof. unfold entitiesOf. apply flat_map_app. Qed.

Lemma warningsOf_app specs1 specs2 :
  warningsOf (specs1 ++ specs2) = warningsOf specs1 ++ warningsOf specs2.
Proof. unfold warningsOf. apply flat_map_app. Qed.

Lemma recorded_nil f : recorded f f [].
Proof. split; cbn; rewrite app_nil_r; reflexivity. Qed.

Lemma recorded_trans f1 f2 f3 specs1 specs2 :
  recorded f1 f2 specs1 -> recorded f2 f3 specs2 -> recorded f1 f3 (specs1 ++ specs2).
Proof.
  intros [He1 Hw1] [He2 Hw2]. split.
  - rewrite He2, He1, entitiesOf_app, app_assoc. reflexivity.
  - rewrite Hw2, Hw1, warningsOf_app, app_assoc. reflexivity.
Qed.

Lemma fold_Walk_recorded nodes :
  Forall (fun n => forall f, recorded f (Walk n f) (typeSpecs n)) nodes ->
  forall f, recorded f (fold_left (fun acc child => Walk child acc) nodes f)
                     (flat_map typeSpecs nodes).
Proof.
  induction 1 as [| node nodes Hnode _ IH]; intros f; cbn [fold_left flat_map].
  - apply recorded_nil.
  - eapply recorded_trans; [apply Hnode | apply IH].
Qed.

Lemma Walk_recorded n : forall f, recorded f (Walk n f) (typeSpecs n).
Proof.
  induction n as [decls IH | files IH | stmts IH | decl IH | body IH | | specs IH | name type |]
    using Node_induction; intros f.
  - apply (fold_Walk_recorded decls IH).
  - apply (fold_Walk_recorded files IH).
  - apply (fold_Walk_recorded stmts IH).
  - apply IH.
  - apply IH.
  - apply recorded_nil.
  - apply (fold_Walk_recorded specs IH).
  - rewrite Walk_TypeSpec. destruct type as [structType | e]; [| apply recorded_nil].
    unfold recorded, entitiesOf, warningsOf. cbn.
    destruct (isDosaEntity structType); [| cbn; rewrite !app_nil_r; split; reflexivity].
    destruct (tableFromStructType name structType); cbn; rewrite !app_nil_r; split; reflexivity.
  - apply recorded_nil.
Qed.

(** X1: walking a node adds to the visitor, after what it already holds
    and in the order of the walk, the table of every reachable candidate
    struct declaration that translates and the error of every one that
    does not; nothing already recorded is changed or dropped. *)
Theorem Walk_appends_outcomes_of_reachable_specs :
  forall n f,
    Entities (Walk n f) = Entities f ++ entitiesOf (typeSpecs n) /\
    Warnings (Walk n f) = Warnings f ++ warningsOf (typeSpecs n).
Proof. intros n f. apply Walk_recorded. Qed.

Lemma outcomes_count specs :
  length (entitiesOf specs) + length (warningsOf specs) = length (candidatesOf specs).
Proof.
  induction specs as [| spec specs IH]; [reflexivity |].
  unfold entitiesOf, warningsOf, candidatesOf in *. cbn.
  rewrite !length_app.
  destruct (isDosaEntity (snd spec)); cbn; [| lia].
  destruct (tableFromStructType (fst spec) (snd spec)); cbn; lia.
Qed.

(** X2: every candidate reached by the walk is accounted for exactly
    once: the entities and the warnings added by a walk are together as
    many as the reachable struct declarations the heuristic accepts. *)
Theorem Walk_records_each_candidate_once :
  forall n f,
    length (Entities (Walk n f)) + length (Warnings (Walk n f)) =
    length (Entities f) + length (Warnings f) + length (candidatesOf (typeSpecs n)).
Proof.
  intros n f. destruct (Walk_recorded n f) as [-> ->].
  rewrite !length_app, <- outcomes_count. lia.
Qed.

Lemma walkDecls_recorded decls f :
  recorded f (walkDecls decls f) (flat_map typeSpecs decls).
Proof.
  apply fold_Walk_recorded. apply Forall_forall. intros n _. apply Walk_recorded.
Qed.

Lemma walkFiles_recorded files f :
  recorded f (walkFiles files f)
           (flat_map (fun file => flat_map typeSpecs (FileDecls file)) files).
Proof.
  revert f. induction files as [| file files IH]; intros f; cbn [flat_map].
  - apply recorded_nil.
  - eapply recorded_trans; [apply walkDecls_recorded | apply IH].
Qed.

Lemma walkPackages_recorded packages f :
  recorded f (walkPackages packages f) (parsedSpecs packages).
Proof.
  revert f. induction packages as [| pkg packages IH]; intros f; cbn [parsedSpecs flat_map].
  - apply recorded_nil.
  - eapply recorded_trans; [apply walkFiles_recorded | apply IH].
Qed.

(** X3: when the parser reports no error, FindEntities returns no fatal
    error, the tables of the candidate struct declarations that translate
    and the errors of those that do not, each list in the order of the
    traversal; one declaration has no effect on the outcome of another. *)
Theorem FindEntities_collects_outcomes :
  forall path excludes packages,
    parser_ParseDir path (fileFilter excludes) = (packages, None) ->
    FindEntities path excludes =
    (entitiesOf (parsedSpecs packages), warningsOf (parsedSpecs packages), None).
Proof.
  intros path excludes packages Hparse. unfold FindEntities. rewrite Hparse.
  destruct (walkPackages_recorded packages {| Entities := []; Warnings := [] |}) as [-> ->].
  reflexivity.
Qed.

(** X4: a file is left out of the scan exactly when the exclusion pattern
    is not empty and filepath.Match reports a match; with the empty
    pattern every file is scanned, whatever Match would say. *)
Theorem fileFilter_excludes_exactly_matches :
  forall excludes fileName,
    fileFilter excludes fileName = false <->
    excludes <> "" /\ fst (filepath_Match excludes fileName) = true.
Proof.
  intros excludes fileName. unfold fileFilter.
  destruct (String.eqb_spec excludes "") as [-> | Hne].
  - split; [discriminate | intros [Hne _]; contradiction].
  - destruct (filepath_Match excludes fileName) as [matched err]. cbn.
    rewrite negb_false_iff. split; [intros ->; split; [assumption | reflexivity] | intros [_ H]; exact H].
Qed.

End Recorder.

(** ** Field types *)




Section Translator.
Context {G : GoLib} {C : Collaborators}.

(** ** Which errors a translation returns *)

Lemma isMarkerField_false_of_kind field :
  String.eqb (fieldKind field) entityName = false -> isMarkerField field = false.
Proof. unfold isMarkerField. intros ->. apply andb_false_r. Qed.

Lemma namesLoop_error kind dosaTag names t err :
  namesLoop kind dosaTag names t = inl err ->
  exists name,
    name ∈ names /\ isUnexported name = false /\
    ((stringToDosaType kind = DosaType.Invalid /\
      err = Errorf "Column %q has invalid type %q" [name; kind]) \/
     (exists cause, parseField (stringToDosaType kind) name dosaTag = inl cause /\
                    err = Wrapf cause "column %q" [name])).
Proof.
  revert t. induction names as [| name names IH]; intros t; cbn; [discriminate |].
  destruct (isUnexported name) eqn:Hexp.
  - intros Hloop. destruct (IH _ Hloop) as (name' & Hin & Hrest).
    exists name'. split; [apply list_elem_of_further, Hin | exact Hrest].
  - destruct (bool_decide_reflect (stringToDosaType kind = DosaType.Invalid)) as [Hinv | _].
    + intros [= <-]. exists name. split; [apply list_elem_of_here |].
      split; [exact Hexp | left; split; [exact Hinv | reflexivity]].
    + destruct (parseField _ name _) as [cause | cd] eqn:Hparse.
      * intros [= <-]. exists name. split; [apply list_elem_of_here |].
        split; [exact Hexp | right; exists cause; split; [exact Hparse | reflexivity]].
      * intros Hloop. destruct (IH _ Hloop) as (name' & Hin & Hrest).
        exists name'. split; [apply list_elem_of_further, Hin | exact Hrest].
Qed.

Lemma fieldStep_error structName structType field t err :
  field ∈ Fields structType ->
  fieldStep structName field t = inl err ->
  translationError structName structType err.
Proof.
  intros Hin. unfold fieldStep.
  destruct (String.eqb_spec (fieldDosaTag field) "-") as [| Htag]; [discriminate |].
  destruct (String.eqb (fieldKind field) entityName) eqn:Hkind.
  - destruct (parseEntityTag _ _) as [cause | [name key]] eqn:Hparse; [| discriminate].
    intros [= <-]. eapply invalidEntityTag; [exact Hin | | exact Hparse].
    unfold isMarkerField. rewrite Hkind. apply String.eqb_neq in Htag. rewrite Htag. reflexivity.
  - intros Hloop. apply isMarkerField_false_of_kind in Hkind.
    apply namesLoop_error in Hloop
      as (name & Hname & Hexp & [[Hinv ->] | (cause & Hparse & ->)]).
    + eapply invalidColumnType; eassumption.
    + eapply invalidFieldTag; eassumption.
Qed.

Lemma fieldsLoop_error structName structType fields t err :
  (forall field, field ∈ fields -> field ∈ Fields structType) ->
  fieldsLoop structName fields t = inl err ->
  translationError structName structType err.
Proof.
  revert t. induction fields as [| field fields IH]; intros t Hsub; cbn; [discriminate |].
  destruct (fieldStep structName field t) as [err' | t1] eqn:Hstep; cbn.
  - intros [= <-]. eapply fieldStep_error; [| exact Hstep]. apply Hsub, list_elem_of_here.
  - apply IH. intros f Hf. apply Hsub, list_elem_of_further, Hf.
Qed.

(** X5: an error returned by the translator is one of five: the wrapped
    error of NormalizeName; the error of parseEntityTag on a marker field
    of the record, as it is; the invalid-type error for an exported name
    of a non-ignored, non-marker field whose type label maps to Invalid;
    the wrapped error of parseField for such a name; or the wrapped error
    of the final validity check. *)
Theorem tableFromStructType_error_origin :
  forall structName structType err,
    tableFromStructType structName structType = inl err ->
    translationError structName structType err.
Proof.
  intros structName structType err. unfold tableFromStructType.
  destruct (NormalizeName structName) as [cause | normalizedName] eqn:Hname.
  - intros [= <-]. apply invalidStructName, Hname.
  - destruct (fieldsLoop _ _ _) as [err' | t] eqn:Hloop; cbn.
    + intros [= <-]. eapply fieldsLoop_error; [| exact Hloop]. intros field Hin. exact Hin.
    + destruct (EnsureValid (translateKeyName t)) as [cause |] eqn:Hvalid; [| discriminate].
      intros [= <-]. eapply invalidTable, Hvalid.
Qed.

(** X12: translation stops at the first field that fails: its error is
    the result whatever fields follow it, and neither the key-name
    translation nor the validity check takes part. *)
Theorem first_failing_field_decides :
  forall structName normalizedName before field after t err,
    NormalizeName structName = inr normalizedName ->
    fieldsLoop structName before (newTable structName normalizedName) = inr t ->
    fieldStep structName field t = inl err ->
    tableFromStructType structName {| Fields := before ++ field :: after |} = inl err.
Proof.
  intros structName normalizedName before field after t err Hname Hbefore Hstep.
  unfold tableFromStructType. rewrite Hname. cbn [Fields].
  rewrite fieldsLoop_app, Hbefore. cbn [bind].
  rewrite fieldsLoop_cons, Hstep. reflexivity.
Qed.

(** ** Fields that bind no exported name *)

Lemma namesLoop_all_unexported kind dosaTag names t :
  Forall (fun name => isUnexported name = true) names ->
  namesLoop kind dosaTag names t = Ok t.
Proof.
  induction 1 as [| name names Hname _ IH]; cbn; [reflexivity |].
  rewrite Hname. exact IH.
Qed.

(** X11: a field that is not a marker field and binds no exported name
    (an embedded field, or one with lower-case names only) contributes
    nothing, whatever its type and its tag: the record is translated as
    the record without it. *)
Theorem field_without_exported_name_contributes_nothing :
  forall structName before field after,
    isMarkerField field = false ->
    Forall (fun name => isUnexported name = true) (Names field) ->
    tableFromStructType structName {| Fields := before ++ field :: after |} =
    tableFromStructType structName {| Fields := before ++ after |}.
Proof.
  intros structName before field after Hmarker Hnames.
  apply tableFromStructType_ext. intros t. rewrite !fieldsLoop_app.
  destruct (fieldsLoop structName before t) as [err | t']; [reflexivity |].
  cbn [bind]. rewrite fieldsLoop_cons.
  assert (Hstep : fieldStep structName field t' = Ok t').
  { unfold fieldStep. unfold isMarkerField in Hmarker.
    destruct (String.eqb (fieldDosaTag field) "-"); [reflexivity |].
    cbn in Hmarker. rewrite Hmarker. apply namesLoop_all_unexported, Hnames. }
  rewrite Hstep. reflexivity.
Qed.

(** ** The table after the field loop *)

Lemma namesLoop_StructName kind dosaTag names t t' :
  namesLoop kind dosaTag names t = inr t' -> Table.StructName t' = Table.StructName t.
Proof.
  revert t. induction names as [| name names IH]; intros t; cbn.
  - intros [= <-]. reflexivity.
  - destruct (isUnexported name); [apply IH |].
    destruct (bool_decide _); [discriminate |].
    destruct (parseField _ _ _) as [err | cd]; [discriminate |].
    intros Hloop. apply IH in Hloop. exact Hloop.
Qed.

Lemma fieldsLoop_StructName structName fields t t' :
  fieldsLoop structName fields t = inr t' -> Table.StructName t' = Table.StructName t.
Proof.
  revert t. induction fields as [| field fields IH]; intros t; cbn.
  - intros [= <-]. reflexivity.
  - destruct (fieldStep structName field t) as [err | t1] eqn:Hstep; [discriminate |].
    cbn. intros Hloop. apply IH in Hloop as ->.
    unfold fieldStep in Hstep.
    destruct (String.eqb (fieldDosaTag field) "-"); [injection Hstep as <-; reflexivity |].
    destruct (String.eqb (fieldKind field) entityName).
    + destruct (parseEntityTag _ _) as [err | [name key]]; [discriminate |].
      injection Hstep as <-. reflexivity.
    + eapply namesLoop_StructName, Hstep.
Qed.

(** X6: only a marker field sets the key and renames the entity: after
    the field loop over a record without one, the key is nil and the
    entity name is the normalized declared name; and the loop never
    changes the declared name kept in the table. *)
Theorem key_is_set_by_marker_fields_only :
  forall structName normalizedName fields t,
    fieldsLoop structName fields (newTable structName normalizedName) = inr t ->
    Table.StructName t = structName /\
    (Forall (fun field => isMarkerField field = false) fields ->
     Table.Key t = None /\ Table.Name t = normalizedName).
Proof.
  intros structName normalizedName fields t Hloop. split.
  - apply fieldsLoop_StructName in Hloop. exact Hloop.
  - intros Hno. destruct (fieldsLoop_no_marker _ _ _ _ Hno Hloop) as [-> ->].
    split; reflexivity.
Qed.

Lemma namesLoop_column_names kind dosaTag names t t' :
  namesLoop kind dosaTag names t = inr t' ->
  map ColumnDefinition.Name (Table.Columns t') =
  map ColumnDefinition.Name (Table.Columns t) ++ map snd (nameBindings kind dosaTag names).
Proof.
  revert t. induction names as [| name names IH]; intros t; cbn.
  - intros [= <-]. rewrite app_nil_r. reflexivity.
  - destruct (isUnexported name); [apply IH |].
    destruct (bool_decide _); [discriminate |].
    destruct (parseField _ _ _) as [err | cd]; [discriminate |].
    intros Hloop. apply IH in Hloop. rewrite Hloop. cbn.
    rewrite map_app, <- app_assoc. reflexivity.
Qed.

Lemma fieldStep_column_names structName field t t' :
  fieldStep structName field t = inr t' ->
  map ColumnDefinition.Name (Table.Columns t') =
  map ColumnDefinition.Name (Table.Columns t) ++ map snd (fieldBindings field).
Proof.
  unfold fieldStep, fieldBindings.
  destruct (String.eqb (fieldDosaTag field) "-").
  - intros [= <-]. rewrite app_nil_r. reflexivity.
  - destruct (String.eqb (fieldKind field) entityName).
    + destruct (parseEntityTag _ _) as [err | [name key]]; [discriminate |].
      intros [= <-]. rewrite app_nil_r. reflexivity.
    + apply namesLoop_column_names.
Qed.

Lemma fieldsLoop_column_names structName fields t t' :
  fieldsLoop structName fields t = inr t' ->
  map ColumnDefinition.Name (Table.Columns t') =
  map ColumnDefinition.Name (Table.Columns t) ++ map snd (exportedBindings fields).
Proof.
  revert t. induction fields as [| field fields IH]; intros t; cbn.
  - intros [= <-]. rewrite app_nil_r. reflexivity.
  - destruct (fieldStep structName field t) as [err | t1] eqn:Hstep; [discriminate |].
    cbn. intros Hloop. apply IH in Hloop. apply fieldStep_column_names in Hstep.
    rewrite Hloop, Hstep, map_app, app_assoc. reflexivity.
Qed.

(** X7: after the field loop the column list has one column for every
    exported name bound by a non-ignored, non-marker field, in declaration
    order, repeated names and repeated column names included. *)
Theorem columns_follow_declaration_order :
  forall structName normalizedName fields t,
    fieldsLoop structName fields (newTable structName normalizedName) = inr t ->
    map ColumnDefinition.Name (Table.Columns t) = map snd (exportedBindings fields).
Proof.
  intros structName normalizedName fields t Hloop.
  apply fieldsLoop_column_names in Hloop. exact Hloop.
Qed.

End Translator.

(** ** Lookups in tables built by registering pairs *)

Lemma fieldToColOf_is_Some pairs n :
  is_Some (fieldToColOf pairs ∅ !! n) <-> n ∈ map fst pairs.
Proof.
  induction pairs as [| [n0 c0] pairs IH] using rev_ind.
  - cbn. rewrite lookup_empty, elem_of_nil. split; [intros [? [=]] | contradiction].
  - rewrite fieldToColOf_snoc, map_app, elem_of_app, <- IH. cbn.
    rewrite list_elem_of_singleton. destruct (decide (n0 = n)) as [-> | Hne].
    + rewrite lookup_insert_eq. split; [right; reflexivity | eauto].
    + rewrite lookup_insert_ne by assumption.
      split; [left; assumption | intros [H | H]; [assumption | congruence]].
Qed.

Lemma colToFieldOf_is_Some pairs c :
  is_Some (colToFieldOf pairs ∅ !! c) <-> c ∈ map snd pairs.
Proof.
  induction pairs as [| [n0 c0] pairs IH] using rev_ind.
  - cbn. rewrite lookup_empty, elem_of_nil. split; [intros [? [=]] | contradiction].
  - rewrite colToFieldOf_snoc, map_app, elem_of_app, <- IH. cbn.
    rewrite list_elem_of_singleton. destruct (decide (c0 = c)) as [-> | Hne].
    + rewrite lookup_insert_eq. split; [right; reflexivity | eauto].
    + rewrite lookup_insert_ne by assumption.
      split; [left; assumption | intros [H | H]; [assumption | congruence]].
Qed.

Lemma fieldToColOf_untouched pairs m n :
  n ∉ map fst pairs -> fieldToColOf pairs m !! n = m !! n.
Proof.
  revert m. induction pairs as [| [n0 c0] pairs IH]; intros m Hnot; [reflexivity |].
  cbn in *. unfold fieldToColOf in *. cbn. rewrite IH.
  - apply lookup_insert_ne. intros ->. apply Hnot, list_elem_of_here.
  - intros Hin. apply Hnot, list_elem_of_further, Hin.
Qed.

Lemma colToFieldOf_untouched pairs m c :
  c ∉ map snd pairs -> colToFieldOf pairs m !! c = m !! c.
Proof.
  revert m. induction pairs as [| [n0 c0] pairs IH]; intros m Hnot; [reflexivity |].
  cbn in *. unfold colToFieldOf in *. cbn. rewrite IH.
  - apply lookup_insert_ne. intros ->. apply Hnot, list_elem_of_here.
  - intros Hin. apply Hnot, list_elem_of_further, Hin.
Qed.

Lemma oneToOneb_sound pairs : oneToOneb pairs = true -> oneToOne pairs.
Proof.
  unfold oneToOneb. rewrite forallb_forall. intros Hall n c n' c' Hp Hq.
  apply list_elem_of_In in Hp, Hq.
  specialize (Hall _ Hp). rewrite forallb_forall in Hall. specialize (Hall _ Hq).
  cbn in Hall. apply Bool.eqb_prop in Hall.
  rewrite <- (String.eqb_eq n n'), <- (String.eqb_eq c c'), Hall. reflexivity.
Qed.

Section Tables.
Context {G : GoLib} {C : Collaborators}.

Lemma exportedBindings_origin fields n c :
  (n, c) ∈ exportedBindings fields ->
  exists field cd,
    field ∈ fields /\ fieldDosaTag field <> "-" /\ fieldKind field <> entityName /\
    n ∈ Names field /\ isUnexported n = false /\
    parseField (stringToDosaType (fieldKind field)) n (fieldDosaTag field) = inr cd /\
    ColumnDefinition.Name cd = c.
Proof.
  unfold exportedBindings. rewrite list_elem_of_In, in_flat_map.
  intros (field & Hfield & Hin). apply list_elem_of_In in Hfield.
  unfold fieldBindings in Hin.
  destruct (String.eqb_spec (fieldDosaTag field) "-"); [destruct Hin |].
  destruct (String.eqb_spec (fieldKind field) entityName); [destruct Hin |].
  apply list_elem_of_In, nameBindings_exported in Hin as (Hn & Hlow & cd & Hparse & Hcol).
  exists field, cd. repeat split; assumption.
Qed.

(** C5, amended: when the key-name translation leaves the two tables as
    they are, the tables of every translated record obey three rules.
    Every entry of either table is a (field name, column name) pair bound
    by an exported name of a non-ignored, non-marker field, the column
    name being the one parseField gave.  A later registration replaces an
    earlier one in its own direction only: a field name maps to the
    column of its last binding, a column name to the field of its last
    binding.  And the two tables are exact inverses, with exactly the
    bound pairs as entries, whenever the bound pairs are one-to-one. *)
Theorem mapping_tables_hold_the_last_bindings :
  forall structName structType table,
    (forall t, Table.FieldToCol (translateKeyName t) = Table.FieldToCol t /\
               Table.ColToField (translateKeyName t) = Table.ColToField t) ->
    tableFromStructType structName structType = inr table ->
    (forall n c, Table.FieldToCol table !! n = Some c ->
                 (n, c) ∈ exportedBindings (Fields structType)) /\
    (forall n c, Table.ColToField table !! c = Some n ->
                 (n, c) ∈ exportedBindings (Fields structType)) /\
    (forall n c, (n, c) ∈ exportedBindings (Fields structType) ->
                 exists field cd,
                   field ∈ Fields structType /\ fieldDosaTag field <> "-" /\
                   fieldKind field <> entityName /\
                   n ∈ Names field /\ isUnexported n = false /\
                   parseField (stringToDosaType (fieldKind field)) n (fieldDosaTag field) = inr cd /\
                   ColumnDefinition.Name cd = c) /\
    (forall earlier n c later,
        exportedBindings (Fields structType) = earlier ++ (n, c) :: later ->
        (n ∉ map fst later -> Table.FieldToCol table !! n = Some c) /\
        (c ∉ map snd later -> Table.ColToField table !! c = Some n)) /\
    (oneToOne (exportedBindings (Fields structType)) ->
     exactInverses table /\
     (forall n c, Table.FieldToCol table !! n = Some c <->
                  (n, c) ∈ exportedBindings (Fields structType))).
Proof.
  intros structName structType table Hkeep Htable. unfold exactInverses.
  apply tableFromStructType_inr in Htable as (normalizedName & t & _ & Hloop & -> & _).
  destruct (Hkeep t) as [Hf Hc].
  apply fieldsLoop_tables in Hloop as [Hf' Hc']. cbn in Hf', Hc'.
  rewrite Hf, Hc, Hf', Hc'. clear Hf Hc Hf' Hc' Hkeep.
  split; [intros n c; apply fieldToColOf_elem |].
  split; [intros n c; apply colToFieldOf_elem |].
  split; [intros n c; apply exportedBindings_origin |].
  split.
  - intros earlier n c later ->. unfold fieldToColOf, colToFieldOf.
    rewrite !fold_left_app. cbn [fold_left fst snd]. split; intros Hnot.
    + rewrite (fieldToColOf_untouched later _ n Hnot). apply lookup_insert_eq.
    + rewrite (colToFieldOf_untouched later _ c Hnot). apply lookup_insert_eq.
  - intros Hone.
    assert (Hfield : forall n c, fieldToColOf (exportedBindings (Fields structType)) ∅ !! n = Some c <->
                                 (n, c) ∈ exportedBindings (Fields structType)).
    { intros n c. split; [apply fieldToColOf_elem | apply fieldToColOf_lookup, Hone]. }
    assert (Hcol : forall n c, colToFieldOf (exportedBindings (Fields structType)) ∅ !! c = Some n <->
                               (n, c) ∈ exportedBindings (Fields structType)).
    { intros n c. split; [apply colToFieldOf_elem | apply colToFieldOf_lookup, Hone]. }
    split; [| exact Hfield].
    intros n c. rewrite Hfield, Hcol. reflexivity.
Qed.

(** X8: after the field loop the tables and the column list agree: the
    keys of the column-to-field table are the names of the columns, every
    column a field maps to is a column of the list, and every field a
    column maps to has an entry of its own. *)
Theorem tables_agree_with_columns :
  forall structName normalizedName fields t,
    fieldsLoop structName fields (newTable structName normalizedName) = inr t ->
    (forall c, is_Some (Table.ColToField t !! c) <->
               c ∈ map ColumnDefinition.Name (Table.Columns t)) /\
    (forall n c, Table.FieldToCol t !! n = Some c ->
                 c ∈ map ColumnDefinition.Name (Table.Columns t)) /\
    (forall c n, Table.ColToField t !! c = Some n -> is_Some (Table.FieldToCol t !! n)).
Proof.
  intros structName normalizedName fields t Hloop.
  pose proof (fieldsLoop_column_names _ _ _ _ Hloop) as Hcols.
  apply fieldsLoop_tables in Hloop as [Hf Hc]. cbn in Hcols, Hf, Hc.
  rewrite Hcols, Hf, Hc. split; [| split].
  - intros c. apply colToFieldOf_is_Some.
  - intros n c Hlook. apply fieldToColOf_elem in Hlook.
    apply list_elem_of_fmap. exists (n, c). split; [reflexivity | exact Hlook].
  - intros c n Hlook. apply colToFieldOf_elem in Hlook.
    apply fieldToColOf_is_Some, list_elem_of_fmap.
    exists (n, c). split; [reflexivity | exact Hlook].
Qed.

(** X9: a later registration replaces an earlier one: after the field
    loop a field name maps to the column of its last binding in
    declaration order, and a column name to the field of its last
    binding. *)
Theorem last_binding_wins :
  forall structName normalizedName fields t earlier n c later,
    fieldsLoop structName fields (newTable structName normalizedName) = inr t ->
    exportedBindings fields = earlier ++ (n, c) :: later ->
    (n ∉ map fst later -> Table.FieldToCol t !! n = Some c) /\
    (c ∉ map snd later -> Table.ColToField t !! c = Some n).
Proof.
  intros structName normalizedName fields t earlier n c later Hloop Hsplit.
  apply fieldsLoop_tables in Hloop as [Hf Hc]. cbn in Hf, Hc.
  rewrite Hf, Hc, Hsplit. unfold fieldToColOf, colToFieldOf.
  rewrite !fold_left_app. cbn [fold_left fst snd]. split; intros Hnot.
  - rewrite (fieldToColOf_untouched later _ n Hnot). apply lookup_insert_eq.
  - rewrite (colToFieldOf_untouched later _ c Hnot). apply lookup_insert_eq.
Qed.

End Tables.

(** ** What FindEntities returns *)

Section Results.
Context {G : GoLib} {C : Collaborators}.

Lemma elem_of_entitiesOf specs table :
  table ∈ entitiesOf specs <->
  exists name structType,
    (name, structType) ∈ specs /\ isDosaEntity structType = true /\
    tableFromStructType name structType = inr table.
Proof.
  unfold entitiesOf. rewrite list_elem_of_In, in_flat_map. split.
  - intros ([name structType] & Hspec & Hin). cbn in Hin.
    apply list_elem_of_In in Hspec.
    destruct (isDosaEntity structType) eqn:Hcand; [| destruct Hin].
    destruct (tableFromStructType name structType) as [err | table'] eqn:Htr; [destruct Hin |].
    destruct Hin as [<- | []]. exists name, structType. repeat split; assumption.
  - intros (name & structType & Hspec & Hcand & Htr).
    exists (name, structType). split; [apply list_elem_of_In, Hspec |].
    cbn. rewrite Hcand, Htr. left. reflexivity.
Qed.

Lemma elem_of_warningsOf specs err :
  err ∈ warningsOf specs <->
  exists name structType,
    (name, structType) ∈ specs /\ isDosaEntity structType = true /\
    tableFromStructType name structType = inl err.
Proof.
  unfold warningsOf. rewrite list_elem_of_In, in_flat_map. split.
  - intros ([name structType] & Hspec & Hin). cbn in Hin.
    apply list_elem_of_In in Hspec.
    destruct (isDosaEntity structType) eqn:Hcand; [| destruct Hin].
    destruct (tableFromStructType name structType) as [err' | table] eqn:Htr; [| destruct Hin].
    destruct Hin as [<- | []]. exists name, structType. repeat split; assumption.
  - intros (name & structType & Hspec & Hcand & Htr).
    exists (name, structType). split; [apply list_elem_of_In, Hspec |].
    cbn. rewrite Hcand, Htr. left. reflexivity.
Qed.

(** X13: when the parser reports no error, a table is among the returned
    entities exactly when it is the translation of a struct declaration of
    the parsed tree that the heuristic accepts, and then it passed the
    final validity check; an error is among the warnings exactly when it
    is the translation error of such a declaration. *)
Theorem FindEntities_entities_and_warnings :
  forall path excludes packages entities warnings fatal,
    parser_ParseDir path (fileFilter excludes) = (packages, None) ->
    FindEntities path excludes = (entities, warnings, fatal) ->
    fatal = None /\
    (forall table,
        table ∈ entities <->
        exists name structType,
          (name, structType) ∈ parsedSpecs packages /\ isDosaEntity structType = true /\
          tableFromStructType name structType = inr table) /\
    (forall table, table ∈ entities -> EnsureValid table = None) /\
    (forall err,
        err ∈ warnings <->
        exists name structType,
          (name, structType) ∈ parsedSpecs packages /\ isDosaEntity structType = true /\
          tableFromStructType name structType = inl err).
Proof.
  intros path excludes packages entities warnings fatal Hparse Hfind.
  unfold FindEntities in Hfind. rewrite Hparse in Hfind.
  destruct (walkPackages_recorded packages {| Entities := []; Warnings := [] |}) as [He Hw].
  rewrite He, Hw in Hfind. cbn in Hfind. injection Hfind as <- <- <-.
  split; [reflexivity |]. split; [apply elem_of_entitiesOf |].
  split; [| apply elem_of_warningsOf].
  intros table (name & structType & _ & _ & Htr)%elem_of_entitiesOf.
  apply tableFromStructType_inr in Htr as (normalizedName & t & _ & _ & -> & Hvalid).
  exact Hvalid.
Qed.

End Results.

(** ** The further properties on concrete declarations *)

Section MoreExamples.
#[local] Existing Instance refG.
#[local] Existing Instance refC.

Lemma FindEntities_collects_outcomes_witness :
  FindEntities "src" "" =
  (entitiesOf (parsedSpecs (fst (parser_ParseDir "src" (fileFilter "")))),
   warningsOf (parsedSpecs (fst (parser_ParseDir "src" (fileFilter "")))), None).
Proof.
  apply (FindEntities_collects_outcomes (G := refG) (C := refC) "src" "").
  vm_compute. reflexivity.
Defined.

Lemma tableFromStructType_error_origin_witness :
  translationError "Broken" brokenStruct
    (Errorf "Column %q has invalid type %q" ["Home"; "Address"]).
Proof.
  apply (tableFromStructType_error_origin (G := refG) (C := refC) "Broken" brokenStruct).
  vm_compute. reflexivity.
Defined.

Lemma first_failing_field_decides_witness :
  tableFromStructType "Broken"
    {| Fields := [markerField "Name"; plainField "Name" "string"] ++
                 plainField "Home" "Address" :: [plainField "Work" "Address"] |} =
  inl (Errorf "Column %q has invalid type %q" ["Home"; "Address"]).
Proof.
  apply (first_failing_field_decides (G := refG) (C := refC) "Broken" "broken"
           [markerField "Name"; plainField "Name" "string"] (plainField "Home" "Address")
           [plainField "Work" "Address"]
           (loopTable "Broken" "broken" [markerField "Name"; plainField "Name" "string"])).
  - vm_compute. reflexivity.
  - vm_compute. reflexivity.
  - vm_compute. reflexivity.
Defined.

Lemma field_without_exported_name_contributes_nothing_witness :
  tableFromStructType "User"
    {| Fields := [markerField "Name"] ++
                 {| Names := []; Typ := Ident "Address"; Tag := None |} ::
                 [plainField "Name" "string"] |} =
  tableFromStructType "User"
    {| Fields := [markerField "Name"] ++ [plainField "Name" "string"] |}.
Proof.
  apply (field_without_exported_name_contributes_nothing (G := refG) (C := refC) "User"
           [markerField "Name"] {| Names := []; Typ := Ident "Address"; Tag := None |}
           [plainField "Name" "string"]).
  - vm_compute. reflexivity.
  - constructor.
Defined.

Lemma key_is_set_by_marker_fields_only_witness :
  Table.StructName (loopTable "User" "user" [plainField "Name" "string"]) = "User" /\
  Table.Key (loopTable "User" "user" [plainField "Name" "string"]) = None /\
  Table.Name (loopTable "User" "user" [plainField "Name" "string"]) = "user".
Proof.
  assert (Hloop : fieldsLoop "User" [plainField "Name" "string"] (newTable "User" "user") =
                  inr (loopTable "User" "user" [plainField "Name" "string"]))
    by (vm_compute; reflexivity).
  destruct (key_is_set_by_marker_fields_only (G := refG) (C := refC) "User" "user"
              [plainField "Name" "string"]
              (loopTable "User" "user" [plainField "Name" "string"]) Hloop) as [Hname Hkey].
  split; [exact Hname |]. apply Hkey. repeat constructor.
Defined.

Lemma columns_follow_declaration_order_witness :
  map ColumnDefinition.Name
      (Table.Columns (loopTable "Pair" "pair" (Fields repeatedNameStruct))) = ["x"; "y"].
Proof.
  apply (columns_follow_declaration_order (G := refG) (C := refC) "Pair" "pair"
           (Fields repeatedNameStruct)).
  vm_compute. reflexivity.
Defined.

Lemma tables_agree_with_columns_witness :
  (forall c, is_Some (Table.ColToField (loopTable "User" "user" (Fields userStruct)) !! c) <->
             c ∈ map ColumnDefinition.Name
                     (Table.Columns (loopTable "User" "user" (Fields userStruct)))) /\
  (forall n c, Table.FieldToCol (loopTable "User" "user" (Fields userStruct)) !! n = Some c ->
               c ∈ map ColumnDefinition.Name
                       (Table.Columns (loopTable "User" "user" (Fields userStruct)))) /\
  (forall c n, Table.ColToField (loopTable "User" "user" (Fields userStruct)) !! c = Some n ->
               is_Some (Table.FieldToCol (loopTable "User" "user" (Fields userStruct)) !! n)).
Proof.
  apply (tables_agree_with_columns (G := refG) (C := refC) "User" "user" (Fields userStruct)).
  vm_compute. reflexivity.
Defined.

Lemma last_binding_wins_witness :
  Table.FieldToCol (loopTable "Pair" "pair" (Fields repeatedNameStruct)) !! "A" = Some "y" /\
  Table.ColToField (loopTable "Pair" "pair" (Fields repeatedNameStruct)) !! "y" = Some "A".
Proof.
  assert (Hloop : fieldsLoop "Pair" (Fields repeatedNameStruct) (newTable "Pair" "pair") =
                  inr (loopTable "Pair" "pair" (Fields repeatedNameStruct)))
    by (vm_compute; reflexivity).
  assert (Hsplit : exportedBindings (Fields repeatedNameStruct) = [("A", "x")] ++ ("A", "y") :: [])
    by (vm_compute; reflexivity).
  destruct (last_binding_wins (G := refG) (C := refC) "Pair" "pair"
              (Fields repeatedNameStruct)
              (loopTable "Pair" "pair" (Fields repeatedNameStruct))
              [("A", "x")] "A" "y" [] Hloop Hsplit)
    as [Hfield Hcol].
  split; [apply Hfield | apply Hcol]; apply not_elem_of_nil.
Defined.

Lemma FindEntities_entities_and_warnings_witness :
  EnsureValid (translated "User" userStruct) = None.
Proof.
  assert (Hparse : parser_ParseDir "src" (fileFilter "") =
                   (fst (parser_ParseDir "src" (fileFilter "")), None))
    by (vm_compute; reflexivity).
  assert (Hfind : FindEntities "src" "" =
                  ([translated "User" userStruct],
                   [Errorf "Column %q has invalid type %q" ["Home"; "Address"]], None))
    by (vm_compute; reflexivity).
  apply (proj1 (proj2 (proj2 (FindEntities_entities_and_warnings (G := refG) (C := refC)
                                "src" "" _ _ _ _ Hparse Hfind)))).
  apply list_elem_of_here.
Defined.

(** The blank name does not start with a lower-case letter, so it is
    bound like any exported name: two blank fields with different column
    names leave the column [x] mapped to a field that maps to [y]. *)
Example blank_field_names_are_bound_twice :
  tableFromStructType "Blank" blankNamesStruct = inr (translated "Blank" blankNamesStruct) /\
  Table.ColToField (translated "Blank" blankNamesStruct) !! "x" = Some "_" /\
  Table.FieldToCol (translated "Blank" blankNamesStruct) !! "_" = Some "y".
Proof. repeat split; vm_compute; reflexivity. Qed.

(** The tables of [repeatedNameStruct] hold the last bindings, and those
    of [twoMarkersStruct], whose two bindings are one-to-one, are exact
    inverses. *)
Lemma mapping_tables_hold_the_last_bindings_witness :
  (Table.FieldToCol (translated "Pair" repeatedNameStruct) !! "A" = Some "y" /\
   Table.ColToField (translated "Pair" repeatedNameStruct) !! "y" = Some "A" /\
   Table.ColToField (translated "Pair" repeatedNameStruct) !! "x" = Some "A") /\
  (exactInverses (translated "Event" twoMarkersStruct) /\
   forall n c, Table.FieldToCol (translated "Event" twoMarkersStruct) !! n = Some c <->
               (n, c) ∈ [("Name", "name"); ("ID", "id")]).
Proof.
  assert (Hpair : tableFromStructType "Pair" repeatedNameStruct =
                  inr (translated "Pair" repeatedNameStruct))
    by (vm_compute; reflexivity).
  assert (Hevent : tableFromStructType "Event" twoMarkersStruct =
                   inr (translated "Event" twoMarkersStruct))
    by (vm_compute; reflexivity).
  split.
  - destruct (mapping_tables_hold_the_last_bindings (G := refG) (C := refC)
                "Pair" repeatedNameStruct _ keyNameTranslator_keeps_tables Hpair)
      as (_ & _ & _ & Hlast & _).
    destruct (Hlast [("A", "x")] "A" "y" [] ltac:(vm_compute; reflexivity)) as [Hfield Hcol].
    destruct (Hlast [] "A" "x" [("A", "y")] ltac:(vm_compute; reflexivity)) as [_ Hcol'].
    split; [apply Hfield, not_elem_of_nil |].
    split; [apply Hcol, not_elem_of_nil |].
    apply Hcol'. cbn. rewrite list_elem_of_singleton. discriminate.
  - destruct (mapping_tables_hold_the_last_bindings (G := refG) (C := refC)
                "Event" twoMarkersStruct _ keyNameTranslator_keeps_tables Hevent)
      as (_ & _ & _ & _ & Hinverse).
    apply Hinverse, oneToOneb_sound. vm_compute. reflexivity.
Defined.

End MoreExamples.
